(** * Transaction monitoring engine (src/python/aml/transaction_monitor.py)

    A shallow embedding of [TransactionMonitor] and of the five detection
    rules it runs on every monitored transaction, followed by the
    properties of the engine stated in the specification.

    Conventions of the embedding.
    - [str] values are [string]s, the UTF-8 bytes of the text.
      [str.upper] follows the Unicode tables of the interpreter and is
      read from an oracle; nothing is assumed of it.
    - [float] amounts are rationals ([Q]): every finite float is a
      rational, and comparisons and the test [x % m == 0] are exact on
      floats. The builtin [sum] rounds, and how it rounds depends on
      the interpreter (a left fold of rounded additions before Python
      3.12, a compensated sum from 3.12 on): its value on a non-empty
      sequence of floats is read from an oracle; nothing is assumed of
      it.
    - [datetime] values are integers, the number of microseconds since an
      arbitrary epoch, without the bounds of [datetime.min] and
      [datetime.max]; [timedelta(hours=h)] is [h] hours of microseconds.
    - The dictionary [transaction_history] is a [gmap] from account
      identifiers to the list of that account's transactions.
    - [uuid.uuid4()] and [datetime.utcnow()] are read from two oracles,
      indexed by the number of alerts created so far; that number is
      threaded through the rules by a small state monad. *)

From Stdlib Require Import ZArith QArith Qround Lqa List Ascii String.
From Stdlib Require Import DecimalString DecimalNat.
From stdpp Require Import gmap strings list fin_maps.

Local Open Scope string_scope.
Local Open Scope list_scope.
Local Open Scope Z_scope.

(** ** Data model *)

Inductive TransactionType : Type :=
| DEPOSIT
| WITHDRAWAL
| TRANSFER
| CRYPTO_PURCHASE
| CRYPTO_SALE
| CRYPTO_TRANSFER.

Inductive AlertType : Type :=
| STRUCTURING
| VELOCITY
| LARGE_TRANSACTION
| UNUSUAL_PATTERN
| HIGH_RISK_JURISDICTION
| ROUND_AMOUNT.

#[global] Instance TransactionType_eq_dec : EqDecision TransactionType.
Proof. solve_decision. Defined.

#[global] Instance AlertType_eq_dec : EqDecision AlertType.
Proof. solve_decision. Defined.

Module Transaction.
Record t : Type := mk {
  transaction_id : string;
  user_id : string;
  amount : Q;
  currency : string;
  transaction_type : TransactionType;
  timestamp : Z;
  counterparty : option string;
  jurisdiction : option string;
  blockchain_address : option string
}.
End Transaction.

(** Values stored in an alert's [metadata] dictionary. *)
Inductive MetaValue : Type :=
| MFloat (x : Q)
| MInt (n : Z)
| MStr (s : string).

Module AMLAlert.
Record t : Type := mk {
  alert_id : string;
  alert_type : AlertType;
  severity : string;
  transaction_ids : list string;
  user_id : string;
  description : string;
  created_at : Z;
  metadata : gmap string MetaValue
}.
End AMLAlert.

Record TransactionMonitor : Type := mkMonitor {
  alerts : list AMLAlert.t;
  transaction_history : gmap string (list Transaction.t)
}.

(** [TransactionMonitor.__init__] *)
Definition init : TransactionMonitor :=
  {| alerts := []; transaction_history := ∅ |}.

(** ** Class constants *)

Definition CTR_THRESHOLD : Q := 10000.
Definition STRUCTURING_THRESHOLD : Q := 10000.
Definition STRUCTURING_WINDOW_HOURS : Z := 24.
Definition MAX_TRANSACTIONS_PER_DAY : nat := 50.
Definition MAX_VOLUME_PER_DAY : Q := 100000.

(** ** Arithmetic of the source *)

(** [timedelta(hours=h)], in microseconds. *)
Definition timedelta_hours (h : Z) : Z := h * 3600 * 1000000.

(** [x >= y] and [x < y], [x > y] on amounts. *)
Definition Qgeb (x y : Q) : bool := Qle_bool y x.
Definition Qltb (x y : Q) : bool := negb (Qle_bool y x).
Definition Qgtb (x y : Q) : bool := negb (Qle_bool x y).

(** [x % m] of Python: the remainder has the sign of [m]. *)
Definition py_mod (x m : Q) : Q :=
  (x - m * inject_Z (Qfloor (x / m)))%Q.

(** [l[-n:]] for [n > 0]. *)
Definition last_n {A : Type} (n : nat) (l : list A) : list A :=
  skipn (length l - n)%nat l.

(** [self.transaction_history.get(user_id, [])] *)
Definition history_get (self : TransactionMonitor) (uid : string)
  : list Transaction.t :=
  default [] (transaction_history self !! uid).

(** The statements of [monitor_transaction] that store the transaction. *)
Definition store_transaction (self : TransactionMonitor)
    (transaction : Transaction.t) : TransactionMonitor :=
  let uid := Transaction.user_id transaction in
  let h := transaction_history self in
  let h1 := match h !! uid with
            | None => <[uid := []]> h
            | Some _ => h
            end in
  {| alerts := alerts self;
     transaction_history :=
       <[uid := default [] (h1 !! uid) ++ [transaction]]> h1 |}.

(** [str(n)] for a length. *)
Definition str_of_nat (n : nat) : string :=
  NilEmpty.string_of_uint (Nat.to_uint n).

(** Raising the ASCII letters: [a]..[z] are raised, every other byte is
    kept. This is what [str.upper] does on ASCII text. *)
Definition is_lower (c : ascii) : bool :=
  ((97 <=? nat_of_ascii c) && (nat_of_ascii c <=? 122))%nat.

Definition upper_char (c : ascii) : ascii :=
  if is_lower c then ascii_of_nat (nat_of_ascii c - 32) else c.

Fixpoint ascii_upper (s : string) : string :=
  match s with
  | EmptyString => EmptyString
  | String c s' => String (upper_char c) (ascii_upper s')
  end.

(** Text made of ASCII characters only. *)
Fixpoint is_ascii (s : string) : bool :=
  match s with
  | EmptyString => true
  | String c s' => (nat_of_ascii c <? 128)%nat && is_ascii s'
  end.

(** Truth value of an [Optional[str]]: [None] and the empty string are
    false. *)
Definition truthy (o : option string) : bool :=
  match o with
  | None => false
  | Some s => negb (String.eqb s "")
  end.

(** ** The alert factory and the oracles it reads *)

(** Computations that create alerts: the state is the number of alerts
    created so far. *)
Definition Gen (A : Type) : Type := nat -> A * nat.

#[global] Instance gen_mret : MRet Gen := fun A (a : A) n => (a, n).

#[global] Instance gen_bind : MBind Gen :=
  fun A B (f : A -> Gen B) (m : Gen A) n => let (a, n') := m n in f a n'.

(** ** Sample data for the examples *)

Definition sample_uuid4 (n : nat) : string := "alert-" +:+ str_of_nat n.
Definition sample_utcnow (n : nat) : Z := 1000 + Z.of_nat n.
Definition sample_float_str (x : Q) : string := "<amount>".

(** A sum without rounding, right for amounts whose partial sums are
    floats, such as whole numbers. *)
Definition sample_float_sum (xs : list Q) : Q := fold_left Qplus xs 0%Q.

(** [str.upper] as it is on ASCII text, on the dotless i (U+0131, bytes
    196 177), raised to [I], and on the long s (U+017F, bytes 197 191),
    raised to [S]. *)
Fixpoint sample_upper (s : string) : string :=
  match s with
  | EmptyString => EmptyString
  | String c1 s' =>
      match s' with
      | String c2 rest =>
          if Ascii.eqb c1 "196" && Ascii.eqb c2 "177"
          then String "I" (sample_upper rest)
          else if Ascii.eqb c1 "197" && Ascii.eqb c2 "191"
          then String "S" (sample_upper rest)
          else String (upper_char c1) (sample_upper s')
      | EmptyString => String (upper_char c1) EmptyString
      end
  end.

(** The jurisdiction [iran] spelled with a dotless i, and a transfer
    that carries it. *)
Definition dotless_iran : string := String "196" (String "177" "ran").

Definition txn_dotless : Transaction.t :=
  {| Transaction.transaction_id := "j-dotless";
     Transaction.user_id := "acct-1";
     Transaction.amount := 10;
     Transaction.currency := "USD";
     Transaction.transaction_type := TRANSFER;
     Transaction.timestamp := 0;
     Transaction.counterparty := None;
     Transaction.jurisdiction := Some dotless_iran;
     Transaction.blockchain_address := None |}.

(** A withdrawal of account [acct-1], in USD, without jurisdiction. *)
Definition sample_txn (tid : string) (amt : Q) (ts : Z) : Transaction.t :=
  {| Transaction.transaction_id := tid;
     Transaction.user_id := "acct-1";
     Transaction.amount := amt;
     Transaction.currency := "USD";
     Transaction.transaction_type := WITHDRAWAL;
     Transaction.timestamp := ts;
     Transaction.counterparty := None;
     Transaction.jurisdiction := None;
     Transaction.blockchain_address := None |}.

(** The engine after the transactions of a list have been stored. *)
Definition stored (txns : list Transaction.t) : TransactionMonitor :=
  fold_left store_transaction txns init.

(** A transaction dated four days ahead, submitted before one dated 0. *)
Definition txn_late : Transaction.t :=
  sample_txn "t-late" 100 (timedelta_hours 96).
Definition txn_early : Transaction.t := sample_txn "t-early" 100 0.

(** Two amounts of 500 followed by one of 1000, an hour apart. *)
Definition txn_500a : Transaction.t := sample_txn "r1" 500 0.
Definition txn_500b : Transaction.t :=
  sample_txn "r2" 500 (timedelta_hours 1).
Definition txn_1000 : Transaction.t :=
  sample_txn "r3" 1000 (timedelta_hours 2).

(** A single withdrawal of 15 000, and the alert it raises on a fresh
    engine. *)
Definition txn_15000 : Transaction.t := sample_txn "big" 15000 0.

Definition alert_15000 : AMLAlert.t :=
  {| AMLAlert.alert_id := "alert-0";
     AMLAlert.alert_type := LARGE_TRANSACTION;
     AMLAlert.severity := "high";
     AMLAlert.transaction_ids := ["big"];
     AMLAlert.user_id := "acct-1";
     AMLAlert.description :=
       "Large transaction of <amount> USD exceeds CTR threshold";
     AMLAlert.created_at := 1000;
     AMLAlert.metadata := ∅ |}.

(** The kinds of the alerts one call returns on a fresh run of the
    sample oracles. *)
Definition sample_kinds (self : TransactionMonitor)
    (transaction : Transaction.t)
    (monitor : TransactionMonitor -> Transaction.t ->
               Gen (list AMLAlert.t * TransactionMonitor))
  : list AlertType :=
  map AMLAlert.alert_type (fst (fst (monitor self transaction 0%nat))).

(** [k] withdrawals of 100, one microsecond apart. *)
Definition sample_burst (k : nat) : list Transaction.t :=
  map (fun i => sample_txn ("b" +:+ str_of_nat i) 100 (Z.of_nat i)) (seq 0 k).

(** Three withdrawals of 9 500 within two hours, and a withdrawal of
    15 000 dated four days ahead. *)
Definition txn_s1 : Transaction.t := sample_txn "s1" 9500 0.
Definition txn_s2 : Transaction.t :=
  sample_txn "s2" 9500 (timedelta_hours 1).
Definition txn_s3 : Transaction.t :=
  sample_txn "s3" 9500 (timedelta_hours 2).
Definition txn_future : Transaction.t :=
  sample_txn "f1" 15000 (timedelta_hours 96).

(** [k] withdrawals of 100 dated four days ahead, one microsecond apart,
    and a withdrawal of 100 dated 0. *)
Definition sample_late_burst (k : nat) : list Transaction.t :=
  map (fun i => sample_txn ("b" +:+ str_of_nat i) 100
                           (timedelta_hours 96 + Z.of_nat i))
      (seq 0 k).
Definition txn_now : Transaction.t := sample_txn "now" 100 0.

(** A transfer from the jurisdiction [iran], in lower case. *)
Definition txn_iran : Transaction.t :=
  {| Transaction.transaction_id := "j-iran";
     Transaction.user_id := "acct-1";
     Transaction.amount := 10;
     Transaction.currency := "USD";
     Transaction.transaction_type := TRANSFER;
     Transaction.timestamp := 0;
     Transaction.counterparty := None;
     Transaction.jurisdiction := Some "iran";
     Transaction.blockchain_address := None |}.

(** A deposit of another account, [acct-2]. *)
Definition txn_other : Transaction.t :=
  {| Transaction.transaction_id := "o1";
     Transaction.user_id := "acct-2";
     Transaction.amount := 9500;
     Transaction.currency := "EUR";
     Transaction.transaction_type := DEPOSIT;
     Transaction.timestamp := timedelta_hours 1;
     Transaction.counterparty := None;
     Transaction.jurisdiction := Some "Syria";
     Transaction.blockchain_address := None |}.

Section Monitor.

(** [str(uuid.uuid4())] and [datetime.utcnow()] at the creation of the
    [n]-th alert of the process. *)
Variable uuid4 : nat -> string.
Variable utcnow : nat -> Z.

(** The text an f-string puts for a [float]. *)
Variable float_str : Q -> string.

(** The builtin [sum] on a non-empty sequence of floats. *)
Variable float_sum : list Q -> Q.

(** [str.upper] *)
Variable str_upper : string -> string.

(** [sum(txn.amount for txn in txns)]: the integer [0] when there is
    nothing to add, the float sum of the amounts otherwise. *)
Definition sum_amounts (txns : list Transaction.t) : Q :=
  match txns with
  | [] => 0%Q
  | _ :: _ => float_sum (map Transaction.amount txns)
  end.

Definition _create_alert (alert_type : AlertType) (severity : string)
    (transaction_ids : list string) (user_id : string) (description : string)
    (metadata : option (gmap string MetaValue)) : Gen AMLAlert.t :=
  fun n =>
    ({| AMLAlert.alert_id := uuid4 n;
        AMLAlert.alert_type := alert_type;
        AMLAlert.severity := severity;
        AMLAlert.transaction_ids := transaction_ids;
        AMLAlert.user_id := user_id;
        AMLAlert.description := description;
        AMLAlert.created_at := utcnow n;
        AMLAlert.metadata := default ∅ metadata |}, S n).

(** ** The windows of the rules *)

(** [recent_txns] of [_check_structuring]. *)
Definition structuring_recent_txns (self : TransactionMonitor)
    (transaction : Transaction.t) : list Transaction.t :=
  let user_txns := history_get self (Transaction.user_id transaction) in
  let cutoff_time :=
    Transaction.timestamp transaction
    - timedelta_hours STRUCTURING_WINDOW_HOURS in
  List.filter
    (fun txn =>
       (cutoff_time <=? Transaction.timestamp txn)
       && bool_decide (Transaction.transaction_type txn
                       = Transaction.transaction_type transaction))
    user_txns.

(** [recent_txns] of [_check_velocity]. *)
Definition velocity_recent_txns (self : TransactionMonitor)
    (transaction : Transaction.t) : list Transaction.t :=
  let user_txns := history_get self (Transaction.user_id transaction) in
  let cutoff_time := Transaction.timestamp transaction - timedelta_hours 24 in
  List.filter (fun txn => cutoff_time <=? Transaction.timestamp txn) user_txns.

(** [amount % 1000 == 0 or amount % 500 == 0] *)
Definition round_amount (x : Q) : bool :=
  Qeq_bool (py_mod x 1000) 0 || Qeq_bool (py_mod x 500) 0.

(** [recent_round_txns] of [_check_round_amounts]. *)
Definition recent_round_txns (self : TransactionMonitor)
    (transaction : Transaction.t) : list Transaction.t :=
  let user_txns := history_get self (Transaction.user_id transaction) in
  let cutoff_time := Transaction.timestamp transaction - timedelta_hours 24 in
  List.filter
    (fun txn =>
       (cutoff_time <=? Transaction.timestamp txn)
       && round_amount (Transaction.amount txn))
    user_txns.

(** ** The rules *)

Definition _check_structuring (self : TransactionMonitor)
    (transaction : Transaction.t) : Gen (option AMLAlert.t) :=
  let recent_txns := structuring_recent_txns self transaction in
  if (length recent_txns <? 3)%nat then mret None
  else
    let total_amount := sum_amounts recent_txns in
    if Qgeb total_amount STRUCTURING_THRESHOLD then
      let all_below_threshold :=
        forallb (fun txn => Qltb (Transaction.amount txn) CTR_THRESHOLD)
                recent_txns in
      if all_below_threshold && (3 <=? length recent_txns)%nat then
        a ← _create_alert STRUCTURING "critical"
               (map Transaction.transaction_id recent_txns)
               (Transaction.user_id transaction)
               ("Potential structuring: " +:+ str_of_nat (length recent_txns)
                +:+ " transactions totaling " +:+ float_str total_amount
                +:+ " in " +:+ str_of_nat (Z.to_nat STRUCTURING_WINDOW_HOURS)
                +:+ "h")
               (Some {[ "total_amount" := MFloat total_amount;
                        "transaction_count" :=
                          MInt (Z.of_nat (length recent_txns)) ]});
        mret (Some a)
      else mret None
    else mret None.

Definition _check_velocity (self : TransactionMonitor)
    (transaction : Transaction.t) : Gen (option AMLAlert.t) :=
  let recent_txns := velocity_recent_txns self transaction in
  if (MAX_TRANSACTIONS_PER_DAY <? length recent_txns)%nat then
    a ← _create_alert VELOCITY "high"
           (map Transaction.transaction_id (last_n 10 recent_txns))
           (Transaction.user_id transaction)
           ("High transaction velocity: " +:+ str_of_nat (length recent_txns)
            +:+ " transactions in 24h")
           (Some {[ "transaction_count" :=
                      MInt (Z.of_nat (length recent_txns)) ]});
    mret (Some a)
  else
    let total_volume := sum_amounts recent_txns in
    if Qgtb total_volume MAX_VOLUME_PER_DAY then
      a ← _create_alert VELOCITY "high"
             (map Transaction.transaction_id (last_n 10 recent_txns))
             (Transaction.user_id transaction)
             ("High transaction volume: " +:+ float_str total_volume
              +:+ " in 24h")
             (Some {[ "total_volume" := MFloat total_volume ]});
      mret (Some a)
    else mret None.

Definition _check_round_amounts (self : TransactionMonitor)
    (transaction : Transaction.t) : Gen (option AMLAlert.t) :=
  if Qgeb (Transaction.amount transaction) 1000 then
    if round_amount (Transaction.amount transaction) then
      let recent_round_txns := recent_round_txns self transaction in
      if (3 <=? length recent_round_txns)%nat then
        a ← _create_alert ROUND_AMOUNT "medium"
               (map Transaction.transaction_id recent_round_txns)
               (Transaction.user_id transaction)
               ("Multiple round amount transactions: "
                +:+ str_of_nat (length recent_round_txns) +:+ " in 24h")
               (Some {[ "transaction_count" :=
                          MInt (Z.of_nat (length recent_round_txns)) ]});
        mret (Some a)
      else mret None
    else mret None
  else mret None.

Definition high_risk_jurisdictions : gset string :=
  {[ "IRAN"; "NORTH KOREA"; "SYRIA"; "MYANMAR" ]}.

Definition _check_jurisdiction (self : TransactionMonitor)
    (transaction : Transaction.t) : Gen (option AMLAlert.t) :=
  match Transaction.jurisdiction transaction with
  | Some j =>
      if truthy (Some j)
         && bool_decide (str_upper j ∈ high_risk_jurisdictions)
      then
        a ← _create_alert HIGH_RISK_JURISDICTION "critical"
               [Transaction.transaction_id transaction]
               (Transaction.user_id transaction)
               ("Transaction from high-risk jurisdiction: " +:+ j)
               (Some {[ "jurisdiction" := MStr j ]});
        mret (Some a)
      else mret None
  | None => mret None
  end.

(** [alerts.append(a)] when the rule returned an alert. *)
Definition append_if {A : Type} (l : list A) (o : option A) : list A :=
  match o with
  | Some a => l ++ [a]
  | None => l
  end.

Definition monitor_transaction (self : TransactionMonitor)
    (transaction : Transaction.t)
  : Gen (list AMLAlert.t * TransactionMonitor) :=
  let alerts0 : list AMLAlert.t := [] in
  let self1 := store_transaction self transaction in
  alerts1 ←
    (if Qgeb (Transaction.amount transaction) CTR_THRESHOLD then
       a ← _create_alert LARGE_TRANSACTION "high"
              [Transaction.transaction_id transaction]
              (Transaction.user_id transaction)
              ("Large transaction of "
               +:+ float_str (Transaction.amount transaction) +:+ " "
               +:+ Transaction.currency transaction
               +:+ " exceeds CTR threshold")
              None;
       mret (alerts0 ++ [a])
     else mret alerts0);
  structuring_alert ← _check_structuring self1 transaction;
  let alerts2 := append_if alerts1 structuring_alert in
  velocity_alert ← _check_velocity self1 transaction;
  let alerts3 := append_if alerts2 velocity_alert in
  round_amount_alert ← _check_round_amounts self1 transaction;
  let alerts4 := append_if alerts3 round_amount_alert in
  jurisdiction_alert ← _check_jurisdiction self1 transaction;
  let alerts5 := append_if alerts4 jurisdiction_alert in
  mret (alerts5,
       {| alerts := alerts self1 ++ alerts5;
          transaction_history := transaction_history self1 |}).

(** [get_alerts_by_user] and [get_alerts_by_severity] *)
Definition get_alerts_by_user (self : TransactionMonitor) (user_id : string)
  : list AMLAlert.t :=
  List.filter (fun alert => String.eqb (AMLAlert.user_id alert) user_id)
              (alerts self).

Definition get_alerts_by_severity (self : TransactionMonitor)
    (severity : string) : list AMLAlert.t :=
  List.filter (fun alert => String.eqb (AMLAlert.severity alert) severity)
              (alerts self).

(** ** Operations of the engine and reachable states *)

Inductive Op : Type :=
| OpMonitor (transaction : Transaction.t)
| OpAlertsByUser (user_id : string)
| OpAlertsBySeverity (severity : string).

(** One call on the engine: the value returned, the engine afterwards and
    the number of alerts created so far. The two queries only read. *)
Definition step (op : Op) (self : TransactionMonitor) (n : nat)
  : list AMLAlert.t * TransactionMonitor * nat :=
  match op with
  | OpMonitor transaction => monitor_transaction self transaction n
  | OpAlertsByUser uid => (get_alerts_by_user self uid, self, n)
  | OpAlertsBySeverity sev => (get_alerts_by_severity self sev, self, n)
  end.

Inductive reachable : TransactionMonitor -> nat -> Prop :=
| reachable_init : reachable init 0
| reachable_step op self n :
    reachable self n ->
    reachable (snd (fst (step op self n))) (snd (step op self n)).

(** ** Notions the specification is stated with *)

(** The window of the specification's history store: exactly the stored
    transactions of the account whose timestamp lies in
    [[end_time - 24h, end_time]]. *)
Definition closed_interval_window (w : list Transaction.t)
    (self : TransactionMonitor) (transaction : Transaction.t) : Prop :=
  forall txn : Transaction.t,
    txn ∈ w <->
    txn ∈ history_get self (Transaction.user_id transaction)
    /\ Transaction.timestamp transaction - timedelta_hours 24
         <= Transaction.timestamp txn
    /\ Transaction.timestamp txn <= Transaction.timestamp transaction.

(** The stored transactions of the account dated in the 24 hours that
    end at the transaction under evaluation, in the order of the
    history. *)
Definition trailing_24h (self : TransactionMonitor)
    (transaction : Transaction.t) : list Transaction.t :=
  List.filter
    (fun txn =>
       (Transaction.timestamp transaction - timedelta_hours 24
        <=? Transaction.timestamp txn)
       && (Transaction.timestamp txn <=? Transaction.timestamp transaction))
    (history_get self (Transaction.user_id transaction)).

(** The history of the account never runs ahead of the transaction under
    evaluation. *)
Definition none_later (self : TransactionMonitor)
    (transaction : Transaction.t) : Prop :=
  forall txn : Transaction.t,
    txn ∈ history_get self (Transaction.user_id transaction) ->
    Transaction.timestamp txn <= Transaction.timestamp transaction.

(** The pre-condition of the round-amount rule on one amount. *)
Definition round_precondition (x : Q) : bool :=
  Qgeb x 1000 && round_amount x.

(** Two texts are equal, letter case apart, when they are the same once
    every letter [A]..[Z] is lowered. *)
Definition is_upper (c : ascii) : bool :=
  ((65 <=? nat_of_ascii c) && (nat_of_ascii c <=? 90))%nat.

Definition lower_char (c : ascii) : ascii :=
  if is_upper c then ascii_of_nat (nat_of_ascii c + 32) else c.

Fixpoint lower (s : string) : string :=
  match s with
  | EmptyString => EmptyString
  | String c s' => String (lower_char c) (lower s')
  end.

Definition eq_ignore_case (s t : string) : bool :=
  String.eqb (lower s) (lower t).

(** The seed set of high-risk jurisdictions as the specification names it. *)
Definition seed_jurisdictions : list string :=
  ["Iran"; "North Korea"; "Syria"; "Myanmar"].

(** Case-insensitive membership in the seed set. *)
Definition high_risk (j : string) : bool :=
  existsb (eq_ignore_case j) seed_jurisdictions.

(** The jurisdiction rule as the specification states it: an alert
    exactly when the jurisdiction is present and is, letter case apart,
    one of the seed jurisdictions. *)
Definition jurisdiction_rule_by_case (self : TransactionMonitor)
    (transaction : Transaction.t) (n : nat) : Prop :=
  is_Some (fst (_check_jurisdiction self transaction n))
  <-> exists j : string,
        Transaction.jurisdiction transaction = Some j
        /\ high_risk j = true.

(** An amount that is a whole multiple of 1000 or of 500. *)
Definition is_round (x : Q) : Prop :=
  (py_mod x 1000 == 0)%Q \/ (py_mod x 500 == 0)%Q.



(** An alert whose transactions are on record: it names at least one
    transaction, and every identifier it names is that of a transaction in
    the history of the alert's account. *)
Definition on_record (self : TransactionMonitor) (a : AMLAlert.t) : Prop :=
  AMLAlert.transaction_ids a <> []
  /\ forall tid : string,
       tid ∈ AMLAlert.transaction_ids a ->
       tid ∈ map Transaction.transaction_id
                 (history_get self (AMLAlert.user_id a)).

(** ** Basic facts *)

Lemma elem_of_List_filter {A : Type} (f : A -> bool) (l : list A) (x : A) :
  x ∈ List.filter f l <-> x ∈ l /\ f x = true.
Proof. rewrite !list_elem_of_In. apply filter_In. Qed.

Lemma List_filter_sublist {A : Type} (f : A -> bool) (l : list A) :
  sublist (List.filter f l) l.
Proof.
  induction l as [|x l IH]; simpl.
  - constructor.
  - destruct (f x); now constructor.
Qed.

Lemma List_filter_filter {A : Type} (f g : A -> bool) (l : list A) :
  List.filter f (List.filter g l) = List.filter (fun x => g x && f x) l.
Proof.
  induction l as [|x l IH]; simpl; [reflexivity|].
  destruct (g x); simpl; [|exact IH].
  destruct (f x); now rewrite IH.
Qed.

Lemma Qgeb_true (x y : Q) : Qgeb x y = true <-> (y <= x)%Q.
Proof. apply Qle_bool_iff. Qed.

Lemma Qltb_true (x y : Q) : Qltb x y = true <-> (x < y)%Q.
Proof.
  unfold Qltb. rewrite negb_true_iff, <- not_true_iff_false, Qle_bool_iff.
  split; [apply Qnot_le_lt | apply Qlt_not_le].
Qed.

Lemma Qgtb_true (x y : Q) : Qgtb x y = true <-> (y < x)%Q.
Proof. apply (Qltb_true y x). Qed.

Lemma Qltb_Qgeb (x y : Q) : Qltb x y = negb (Qgeb x y).
Proof. reflexivity. Qed.

(** The history of an account after a transaction has been stored. *)
Lemma history_get_store (self : TransactionMonitor) (transaction : Transaction.t)
    (uid : string) :
  history_get (store_transaction self transaction) uid =
  if decide (uid = Transaction.user_id transaction)
  then history_get self uid ++ [transaction]
  else history_get self uid.
Proof.
  unfold history_get, store_transaction; simpl.
  destruct (transaction_history self !! Transaction.user_id transaction)
    as [l|] eqn:E; case_decide; subst;
    rewrite ?lookup_insert_eq, ?E;
    rewrite ?lookup_insert_ne by congruence; try reflexivity.
Qed.

Lemma history_store_other (self : TransactionMonitor)
    (transaction : Transaction.t) (uid : string) :
  uid <> Transaction.user_id transaction ->
  transaction_history (store_transaction self transaction) !! uid
  = transaction_history self !! uid.
Proof.
  intros Hne. unfold store_transaction; simpl.
  destruct (transaction_history self !! Transaction.user_id transaction);
    rewrite !lookup_insert_ne by congruence; reflexivity.
Qed.

Lemma stored_in_history (self : TransactionMonitor)
    (transaction : Transaction.t) :
  transaction ∈ history_get (store_transaction self transaction)
                            (Transaction.user_id transaction).
Proof.
  rewrite history_get_store. rewrite decide_True by reflexivity.
  apply elem_of_app. right. apply list_elem_of_singleton. reflexivity.
Qed.

Lemma timedelta_hours_pos (h : Z) : 0 <= h -> 0 <= timedelta_hours h.
Proof. unfold timedelta_hours. lia. Qed.

(** ** The windows *)

Lemma velocity_window_elem (self : TransactionMonitor)
    (transaction txn : Transaction.t) :
  txn ∈ velocity_recent_txns self transaction <->
  txn ∈ history_get self (Transaction.user_id transaction)
  /\ Transaction.timestamp transaction - timedelta_hours 24
       <= Transaction.timestamp txn.
Proof.
  unfold velocity_recent_txns. rewrite elem_of_List_filter.
  rewrite Z.leb_le. reflexivity.
Qed.

Lemma structuring_window_elem (self : TransactionMonitor)
    (transaction txn : Transaction.t) :
  txn ∈ structuring_recent_txns self transaction <->
  txn ∈ history_get self (Transaction.user_id transaction)
  /\ Transaction.timestamp transaction - timedelta_hours 24
       <= Transaction.timestamp txn
  /\ Transaction.transaction_type txn
     = Transaction.transaction_type transaction.
Proof.
  unfold structuring_recent_txns. rewrite elem_of_List_filter.
  rewrite andb_true_iff, Z.leb_le, bool_decide_eq_true. reflexivity.
Qed.

Lemma round_window_elem (self : TransactionMonitor)
    (transaction txn : Transaction.t) :
  txn ∈ recent_round_txns self transaction <->
  txn ∈ history_get self (Transaction.user_id transaction)
  /\ Transaction.timestamp transaction - timedelta_hours 24
       <= Transaction.timestamp txn
  /\ round_amount (Transaction.amount txn) = true.
Proof.
  unfold recent_round_txns. rewrite elem_of_List_filter.
  rewrite andb_true_iff, Z.leb_le. reflexivity.
Qed.

(** The windows as the code computes them. The window every rule starts
    from holds the stored transactions of the account whose timestamp is
    at least the current timestamp minus 24 hours, in the order of the
    history; the structuring rule further keeps the transactions of the
    current kind and the round-amount rule the round ones. It is the
    closed interval [[timestamp - 24h, timestamp]] whenever no stored
    transaction of the account is later than the current one. *)
Theorem window_lower_bound_only (self : TransactionMonitor)
    (transaction : Transaction.t) :
  let uid := Transaction.user_id transaction in
  let cutoff := Transaction.timestamp transaction - timedelta_hours 24 in
  (forall txn : Transaction.t,
     txn ∈ velocity_recent_txns self transaction <->
     txn ∈ history_get self uid /\ cutoff <= Transaction.timestamp txn)
  /\ sublist (velocity_recent_txns self transaction) (history_get self uid)
  /\ (forall txn : Transaction.t,
        txn ∈ structuring_recent_txns self transaction <->
        txn ∈ velocity_recent_txns self transaction
        /\ Transaction.transaction_type txn
           = Transaction.transaction_type transaction)
  /\ (forall txn : Transaction.t,
        txn ∈ recent_round_txns self transaction <->
        txn ∈ velocity_recent_txns self transaction
        /\ round_amount (Transaction.amount txn) = true)
  /\ (none_later self transaction ->
      closed_interval_window (velocity_recent_txns self transaction)
                             self transaction).
Proof.
  cbv zeta. split; [|split; [|split; [|split]]].
  - intros txn. apply velocity_window_elem.
  - apply List_filter_sublist.
  - intros txn. rewrite structuring_window_elem, velocity_window_elem.
    tauto.
  - intros txn. rewrite round_window_elem, velocity_window_elem. tauto.
  - intros Hlater txn. rewrite velocity_window_elem. split.
    + intros [Hin Hlo]. auto.
    + intros (Hin & Hlo & _). auto.
Qed.

(** ** What each rule returns *)

Ltac run_gen :=
  unfold mbind, gen_bind, mret, gen_mret, _create_alert; simpl.

Lemma check_structuring_run (self : TransactionMonitor)
    (transaction : Transaction.t) (n : nat) :
  let w := structuring_recent_txns self transaction in
  _check_structuring self transaction n =
  if (3 <=? length w)%nat
     && Qgeb (sum_amounts w) STRUCTURING_THRESHOLD
     && forallb (fun txn => Qltb (Transaction.amount txn) CTR_THRESHOLD) w
  then
    (Some {| AMLAlert.alert_id := uuid4 n;
             AMLAlert.alert_type := STRUCTURING;
             AMLAlert.severity := "critical";
             AMLAlert.transaction_ids := map Transaction.transaction_id w;
             AMLAlert.user_id := Transaction.user_id transaction;
             AMLAlert.description :=
               "Potential structuring: " +:+ str_of_nat (length w)
               +:+ " transactions totaling " +:+ float_str (sum_amounts w)
               +:+ " in " +:+ str_of_nat (Z.to_nat STRUCTURING_WINDOW_HOURS)
               +:+ "h";
             AMLAlert.created_at := utcnow n;
             AMLAlert.metadata :=
               {[ "total_amount" := MFloat (sum_amounts w);
                  "transaction_count" := MInt (Z.of_nat (length w)) ]} |},
     S n)
  else (None, n).
Proof.
  unfold _check_structuring. cbv zeta.
  destruct (Nat.ltb_spec (length (structuring_recent_txns self transaction)) 3)
    as [Hlt|Hge].
  - rewrite (proj2 (Nat.leb_gt _ _) Hlt). reflexivity.
  - rewrite (proj2 (Nat.leb_le _ _) Hge). simpl.
    destruct (Qgeb _ STRUCTURING_THRESHOLD); [|reflexivity]. simpl.
    destruct (forallb _ _); reflexivity.
Qed.

Lemma check_velocity_run (self : TransactionMonitor)
    (transaction : Transaction.t) (n : nat) :
  let w := velocity_recent_txns self transaction in
  _check_velocity self transaction n =
  if (MAX_TRANSACTIONS_PER_DAY <? length w)%nat then
    (Some {| AMLAlert.alert_id := uuid4 n;
             AMLAlert.alert_type := VELOCITY;
             AMLAlert.severity := "high";
             AMLAlert.transaction_ids :=
               map Transaction.transaction_id (last_n 10 w);
             AMLAlert.user_id := Transaction.user_id transaction;
             AMLAlert.description :=
               "High transaction velocity: " +:+ str_of_nat (length w)
               +:+ " transactions in 24h";
             AMLAlert.created_at := utcnow n;
             AMLAlert.metadata :=
               {[ "transaction_count" := MInt (Z.of_nat (length w)) ]} |},
     S n)
  else if Qgtb (sum_amounts w) MAX_VOLUME_PER_DAY then
    (Some {| AMLAlert.alert_id := uuid4 n;
             AMLAlert.alert_type := VELOCITY;
             AMLAlert.severity := "high";
             AMLAlert.transaction_ids :=
               map Transaction.transaction_id (last_n 10 w);
             AMLAlert.user_id := Transaction.user_id transaction;
             AMLAlert.description :=
               "High transaction volume: " +:+ float_str (sum_amounts w)
               +:+ " in 24h";
             AMLAlert.created_at := utcnow n;
             AMLAlert.metadata :=
               {[ "total_volume" := MFloat (sum_amounts w) ]} |},
     S n)
  else (None, n).
Proof.
  unfold _check_velocity. cbv zeta.
  destruct (MAX_TRANSACTIONS_PER_DAY <? _)%nat; [reflexivity|].
  destruct (Qgtb _ MAX_VOLUME_PER_DAY); reflexivity.
Qed.

Lemma check_round_amounts_run (self : TransactionMonitor)
    (transaction : Transaction.t) (n : nat) :
  let w := recent_round_txns self transaction in
  _check_round_amounts self transaction n =
  if round_precondition (Transaction.amount transaction)
     && (3 <=? length w)%nat
  then
    (Some {| AMLAlert.alert_id := uuid4 n;
             AMLAlert.alert_type := ROUND_AMOUNT;
             AMLAlert.severity := "medium";
             AMLAlert.transaction_ids := map Transaction.transaction_id w;
             AMLAlert.user_id := Transaction.user_id transaction;
             AMLAlert.description :=
               "Multiple round amount transactions: "
               +:+ str_of_nat (length w) +:+ " in 24h";
             AMLAlert.created_at := utcnow n;
             AMLAlert.metadata :=
               {[ "transaction_count" := MInt (Z.of_nat (length w)) ]} |},
     S n)
  else (None, n).
Proof.
  unfold _check_round_amounts, round_precondition. cbv zeta.
  destruct (Qgeb _ 1000); [|reflexivity].
  destruct (round_amount _); [|reflexivity].
  rewrite andb_true_l.
  destruct (3 <=? length (recent_round_txns self transaction))%nat;
    reflexivity.
Qed.

Lemma check_jurisdiction_run (self : TransactionMonitor)
    (transaction : Transaction.t) (n : nat) :
  _check_jurisdiction self transaction n =
  match Transaction.jurisdiction transaction with
  | Some j =>
      if truthy (Some j)
         && bool_decide (str_upper j ∈ high_risk_jurisdictions)
      then
        (Some {| AMLAlert.alert_id := uuid4 n;
                 AMLAlert.alert_type := HIGH_RISK_JURISDICTION;
                 AMLAlert.severity := "critical";
                 AMLAlert.transaction_ids :=
                   [Transaction.transaction_id transaction];
                 AMLAlert.user_id := Transaction.user_id transaction;
                 AMLAlert.description :=
                   "Transaction from high-risk jurisdiction: " +:+ j;
                 AMLAlert.created_at := utcnow n;
                 AMLAlert.metadata := {[ "jurisdiction" := MStr j ]} |},
         S n)
      else (None, n)
  | None => (None, n)
  end.
Proof.
  unfold _check_jurisdiction.
  destruct (Transaction.jurisdiction transaction) as [j|]; [|reflexivity].
  destruct (truthy (Some j) && bool_decide _); reflexivity.
Qed.

(** ** The conditions of the rules, as propositions *)

Lemma all_below_true (w : list Transaction.t) :
  forallb (fun txn => Qltb (Transaction.amount txn) CTR_THRESHOLD) w = true
  <-> forall txn : Transaction.t,
        txn ∈ w -> (Transaction.amount txn < 10000)%Q.
Proof.
  rewrite forallb_forall. split; intros H txn Hin.
  - apply Qltb_true. apply H. now apply list_elem_of_In.
  - apply Qltb_true. apply H. now apply list_elem_of_In.
Qed.

Lemma round_amount_true (x : Q) : round_amount x = true <-> is_round x.
Proof.
  unfold round_amount, is_round.
  rewrite orb_true_iff, !Qeq_bool_iff. reflexivity.
Qed.


Lemma last_n_length {A : Type} (k : nat) (l : list A) :
  length (last_n k l) = Nat.min k (length l).
Proof. unfold last_n. rewrite length_drop. lia. Qed.

Lemma last_n_suffix {A : Type} (k : nat) (l : list A) :
  last_n k l `suffix_of` l.
Proof. apply suffix_drop. Qed.

Lemma last_n_nil {A : Type} (k : nat) (l : list A) :
  (0 < k)%nat -> last_n k l = [] -> l = [].
Proof.
  intros Hk E. apply (f_equal length) in E.
  rewrite last_n_length in E. simpl in E.
  destruct l; [reflexivity|]. simpl in E. lia.
Qed.

(** The structuring rule on the window the code computes. The rule
    looks at the account's transactions of the current kind whose
    timestamp is at least the current one minus 24 hours; once the
    current transaction is stored it is one of them. It
    returns an alert exactly when that window has at least 3 members,
    their amounts sum to at least 10 000 and each is strictly below
    10 000; the alert is a critical structuring alert on the identifiers
    of the whole window with metadata total_amount and transaction_count.
    Otherwise it returns nothing. *)
Theorem structuring_rule (self : TransactionMonitor)
    (transaction : Transaction.t) (n : nat) :
  let uid := Transaction.user_id transaction in
  let w := structuring_recent_txns self transaction in
  let r := fst (_check_structuring self transaction n) in
  let fires :=
    (3 <= length w)%nat
    /\ (10000 <= sum_amounts w)%Q
    /\ (forall txn : Transaction.t,
          txn ∈ w -> (Transaction.amount txn < 10000)%Q) in
  (forall txn : Transaction.t,
     txn ∈ w <->
     txn ∈ history_get self uid
     /\ Transaction.timestamp transaction - timedelta_hours 24
          <= Transaction.timestamp txn
     /\ Transaction.transaction_type txn
        = Transaction.transaction_type transaction)
  /\ transaction
       ∈ structuring_recent_txns (store_transaction self transaction)
                                 transaction
  /\ ((fires
       /\ exists a : AMLAlert.t,
           r = Some a
           /\ AMLAlert.alert_type a = STRUCTURING
           /\ AMLAlert.severity a = "critical"
           /\ AMLAlert.transaction_ids a = map Transaction.transaction_id w
           /\ AMLAlert.user_id a = uid
           /\ AMLAlert.metadata a
              = {[ "total_amount" := MFloat (sum_amounts w);
                   "transaction_count" := MInt (Z.of_nat (length w)) ]})
      \/ (~ fires /\ r = None)).
Proof.
  cbv zeta. split; [|split].
  - intros txn. apply structuring_window_elem.
  - apply structuring_window_elem. split; [apply stored_in_history|].
    split; [|reflexivity].
    pose proof (timedelta_hours_pos 24). lia.
  - rewrite check_structuring_run. cbv zeta.
    destruct (3 <=? length (structuring_recent_txns self transaction))%nat
      eqn:Hlen; simpl.
    2:{ right. split; [|reflexivity]. intros (H & _).
        apply Nat.leb_gt in Hlen. lia. }
    apply Nat.leb_le in Hlen.
    destruct (Qgeb _ STRUCTURING_THRESHOLD) eqn:Hsum; simpl.
    2:{ right. split; [|reflexivity]. intros (_ & H & _).
        apply Qgeb_true in H. unfold STRUCTURING_THRESHOLD in Hsum.
        congruence. }
    apply Qgeb_true in Hsum.
    destruct (forallb _ _) eqn:Hall; simpl.
    + left. pose proof (proj1 (all_below_true _) Hall) as Hbelow.
      split; [auto|]. eexists. split; [reflexivity|]. simpl. auto 10.
    + right. split; [|reflexivity]. intros (_ & _ & H).
      pose proof (proj2 (all_below_true _) H). congruence.
Qed.

(** The velocity rule on the window the code computes. It returns at
    most one alert. When the window
    (the account's transactions from the current timestamp minus 24
    hours on) has more than 50 members it returns a high velocity alert
    on the last 10 of them, with metadata transaction_count, whatever
    the volume is. Only when the count is at most 50 and the amounts of
    the window sum to more than 100 000 does it return a high velocity
    alert with metadata total_volume. Otherwise it returns nothing. *)
Theorem velocity_rule (self : TransactionMonitor)
    (transaction : Transaction.t) (n : nat) :
  let uid := Transaction.user_id transaction in
  let w := velocity_recent_txns self transaction in
  let r := fst (_check_velocity self transaction n) in
  (forall txn : Transaction.t,
     txn ∈ w <->
     txn ∈ history_get self uid
     /\ Transaction.timestamp transaction - timedelta_hours 24
          <= Transaction.timestamp txn)
  /\ (((50 < length w)%nat
       /\ exists a : AMLAlert.t,
           r = Some a
           /\ AMLAlert.alert_type a = VELOCITY
           /\ AMLAlert.severity a = "high"
           /\ AMLAlert.transaction_ids a
              = map Transaction.transaction_id (last_n 10 w)
           /\ length (last_n 10 w) = 10%nat
           /\ last_n 10 w `suffix_of` w
           /\ AMLAlert.user_id a = uid
           /\ AMLAlert.metadata a
              = {[ "transaction_count" := MInt (Z.of_nat (length w)) ]})
      \/ ((length w <= 50)%nat
          /\ (100000 < sum_amounts w)%Q
          /\ exists a : AMLAlert.t,
              r = Some a
              /\ AMLAlert.alert_type a = VELOCITY
              /\ AMLAlert.severity a = "high"
              /\ AMLAlert.transaction_ids a
                 = map Transaction.transaction_id (last_n 10 w)
              /\ last_n 10 w `suffix_of` w
              /\ AMLAlert.user_id a = uid
              /\ AMLAlert.metadata a
                 = {[ "total_volume" := MFloat (sum_amounts w) ]})
      \/ ((length w <= 50)%nat
          /\ (sum_amounts w <= 100000)%Q
          /\ r = None)).
Proof.
  cbv zeta. split.
  - intros txn. apply velocity_window_elem.
  - rewrite check_velocity_run. cbv zeta.
    destruct (Nat.ltb_spec MAX_TRANSACTIONS_PER_DAY
                (length (velocity_recent_txns self transaction)))
      as [Hgt|Hle]; unfold MAX_TRANSACTIONS_PER_DAY in *.
    + left. split; [exact Hgt|].
      eexists. split; [reflexivity|]. simpl.
      repeat split; try reflexivity.
      * rewrite last_n_length. lia.
      * apply last_n_suffix.
    + right. destruct (Qgtb _ MAX_VOLUME_PER_DAY) eqn:Hvol.
      * left. apply Qgtb_true in Hvol. split; [exact Hle|].
        split; [exact Hvol|].
        eexists. split; [reflexivity|]. simpl.
        repeat split; try reflexivity. apply last_n_suffix.
      * right. split; [exact Hle|]. split; [|reflexivity].
        unfold Qgtb in Hvol. apply negb_false_iff in Hvol.
        now apply Qle_bool_iff in Hvol.
Qed.




(** ** Letter case *)

Lemma upper_lower_char (c : ascii) :
  upper_char (lower_char c) = upper_char c.
Proof. destruct c as [[] [] [] [] [] [] [] []]; reflexivity. Qed.

Lemma lower_upper_char (c : ascii) :
  lower_char (upper_char c) = lower_char c.
Proof. destruct c as [[] [] [] [] [] [] [] []]; reflexivity. Qed.

Lemma upper_lower (s : string) : ascii_upper (lower s) = ascii_upper s.
Proof.
  induction s as [|c s IH]; simpl; [reflexivity|].
  now rewrite upper_lower_char, IH.
Qed.

Lemma lower_upper (s : string) : lower (ascii_upper s) = lower s.
Proof.
  induction s as [|c s IH]; simpl; [reflexivity|].
  now rewrite lower_upper_char, IH.
Qed.

Lemma eq_ignore_case_upper (s t : string) :
  eq_ignore_case s t = String.eqb (ascii_upper s) (ascii_upper t).
Proof.
  unfold eq_ignore_case.
  destruct (String.eqb_spec (lower s) (lower t)) as [E|E];
    destruct (String.eqb_spec (ascii_upper s) (ascii_upper t)) as [E'|E'];
    try reflexivity; exfalso.
  - apply E'. rewrite <- (upper_lower s), <- (upper_lower t). now rewrite E.
  - apply E. rewrite <- (lower_upper s), <- (lower_upper t). now rewrite E'.
Qed.

Lemma high_risk_upper (j : string) :
  bool_decide (ascii_upper j ∈ high_risk_jurisdictions) = high_risk j.
Proof.
  unfold high_risk, seed_jurisdictions. simpl existsb.
  rewrite !eq_ignore_case_upper.
  change (ascii_upper "Iran") with "IRAN".
  change (ascii_upper "North Korea") with "NORTH KOREA".
  change (ascii_upper "Syria") with "SYRIA".
  change (ascii_upper "Myanmar") with "MYANMAR".
  rewrite orb_false_r.
  destruct (String.eqb_spec (ascii_upper j) "IRAN") as [E1|E1];
  destruct (String.eqb_spec (ascii_upper j) "NORTH KOREA") as [E2|E2];
  destruct (String.eqb_spec (ascii_upper j) "SYRIA") as [E3|E3];
  destruct (String.eqb_spec (ascii_upper j) "MYANMAR") as [E4|E4]; simpl;
    try (apply bool_decide_eq_true_2; unfold high_risk_jurisdictions;
         rewrite !elem_of_union, !elem_of_singleton; tauto).
  apply bool_decide_eq_false_2. unfold high_risk_jurisdictions.
  rewrite !elem_of_union, !elem_of_singleton. tauto.
Qed.

Lemma truthy_high_risk (j : string) :
  truthy (Some j) && high_risk j = high_risk j.
Proof. destruct j; [reflexivity|]. simpl truthy. apply andb_true_l. Qed.

Lemma high_risk_names (x : string) :
  x ∈ high_risk_jurisdictions <->
  x = "IRAN" \/ x = "NORTH KOREA" \/ x = "SYRIA" \/ x = "MYANMAR".
Proof.
  unfold high_risk_jurisdictions.
  rewrite !elem_of_union, !elem_of_singleton. tauto.
Qed.

(** C6, as amended. The jurisdiction rule returns an alert exactly when
    the transaction carries a jurisdiction that is not empty and whose
    upper-case form, as [str.upper] gives it, is one of IRAN, NORTH
    KOREA, SYRIA and MYANMAR; the alert is a critical
    high-risk-jurisdiction alert on the current transaction alone, with
    the jurisdiction as metadata, and a transaction without jurisdiction
    never gets one. Since [str.upper] raises the letters of ASCII text
    and nothing else, on an ASCII jurisdiction the rule fires exactly
    when the jurisdiction equals, letter case apart, one of Iran, North
    Korea, Syria and Myanmar. *)
Theorem jurisdiction_rule (self : TransactionMonitor)
    (transaction : Transaction.t) (n : nat) :
  let r := fst (_check_jurisdiction self transaction n) in
  let raised_listed :=
    exists j : string,
      Transaction.jurisdiction transaction = Some j
      /\ j <> ""
      /\ (str_upper j = "IRAN" \/ str_upper j = "NORTH KOREA"
          \/ str_upper j = "SYRIA" \/ str_upper j = "MYANMAR") in
  ((raised_listed
    /\ exists (j : string) (a : AMLAlert.t),
        Transaction.jurisdiction transaction = Some j
        /\ r = Some a
        /\ AMLAlert.alert_type a = HIGH_RISK_JURISDICTION
        /\ AMLAlert.severity a = "critical"
        /\ AMLAlert.transaction_ids a
           = [Transaction.transaction_id transaction]
        /\ AMLAlert.user_id a = Transaction.user_id transaction
        /\ AMLAlert.metadata a = {[ "jurisdiction" := MStr j ]})
   \/ (~ raised_listed /\ r = None))
  /\ (Transaction.jurisdiction transaction = None -> r = None)
  /\ ((forall s : string, is_ascii s = true -> str_upper s = ascii_upper s) ->
      forall j : string,
        Transaction.jurisdiction transaction = Some j ->
        is_ascii j = true ->
        (is_Some r
         <-> exists name : string,
               name ∈ seed_jurisdictions /\ eq_ignore_case j name = true)).
Proof.
  cbv zeta. rewrite check_jurisdiction_run. split; [|split].
  - destruct (Transaction.jurisdiction transaction) as [j|].
    2:{ right. split; [|reflexivity]. intros (j & Hj & _). discriminate. }
    destruct (truthy (Some j)
              && bool_decide (str_upper j ∈ high_risk_jurisdictions))
      eqn:Htest.
    + left. apply andb_true_iff in Htest. destruct Htest as [Hj Hin].
      apply bool_decide_eq_true in Hin. apply high_risk_names in Hin.
      split.
      * exists j. split; [reflexivity|]. split; [|exact Hin].
        intros ->. discriminate.
      * exists j. eexists. split; [reflexivity|]. split; [reflexivity|].
        simpl. auto 10.
    + right. split; [|reflexivity].
      intros (j' & Hj & Hne & Hin). injection Hj as <-.
      apply high_risk_names in Hin.
      apply andb_false_iff in Htest. destruct Htest as [Ht|Ht].
      * destruct j; [congruence|discriminate].
      * apply bool_decide_eq_false in Ht. contradiction.
  - intros ->. reflexivity.
  - intros Hascii j -> Hj. rewrite (Hascii j Hj), high_risk_upper.
    rewrite truthy_high_risk. unfold high_risk.
    destruct (existsb (eq_ignore_case j) seed_jurisdictions) eqn:E.
    + split; [|intros _; eexists; reflexivity].
      intros _. apply existsb_exists in E. destruct E as (name & Hin & E).
      exists name. split; [now apply list_elem_of_In|exact E].
    + split; [intros [a Ha]; discriminate|].
      intros (name & Hin & Heq).
      assert (existsb (eq_ignore_case j) seed_jurisdictions = true);
        [|congruence].
      apply existsb_exists. exists name.
      split; [now apply list_elem_of_In|exact Heq].
Qed.

(** ** One call of [monitor_transaction] *)

Lemma monitor_transaction_run (self : TransactionMonitor)
    (transaction : Transaction.t) (n : nat) :
  let self1 := store_transaction self transaction in
  let is_large := Qgeb (Transaction.amount transaction) CTR_THRESHOLD in
  let large :=
    if is_large then
      Some {| AMLAlert.alert_id := uuid4 n;
              AMLAlert.alert_type := LARGE_TRANSACTION;
              AMLAlert.severity := "high";
              AMLAlert.transaction_ids :=
                [Transaction.transaction_id transaction];
              AMLAlert.user_id := Transaction.user_id transaction;
              AMLAlert.description :=
                "Large transaction of "
                +:+ float_str (Transaction.amount transaction) +:+ " "
                +:+ Transaction.currency transaction
                +:+ " exceeds CTR threshold";
              AMLAlert.created_at := utcnow n;
              AMLAlert.metadata := ∅ |}
    else None in
  let s := _check_structuring self1 transaction (if is_large then S n else n) in
  let v := _check_velocity self1 transaction (snd s) in
  let ra := _check_round_amounts self1 transaction (snd v) in
  let j := _check_jurisdiction self1 transaction (snd ra) in
  let new := omap id [large; fst s; fst v; fst ra; fst j] in
  monitor_transaction self transaction n =
  (new,
   {| alerts := alerts self ++ new;
      transaction_history := transaction_history self1 |},
   snd j).
Proof.
  cbv zeta. unfold monitor_transaction. run_gen.
  destruct (Qgeb (Transaction.amount transaction) CTR_THRESHOLD);
    destruct (_check_structuring _ _ _) as [[a2|] n2]; simpl;
    destruct (_check_velocity _ _ _) as [[a3|] n3]; simpl;
    destruct (_check_round_amounts _ _ _) as [[a4|] n4]; simpl;
    destruct (_check_jurisdiction _ _ _) as [[a5|] n5]; reflexivity.
Qed.

(** ** What the alert of each rule looks like *)

Lemma ids_in_history (self : TransactionMonitor) (uid : string)
    (w : list Transaction.t) :
  (forall txn : Transaction.t, txn ∈ w -> txn ∈ history_get self uid) ->
  forall tid : string,
    tid ∈ map Transaction.transaction_id w ->
    tid ∈ map Transaction.transaction_id (history_get self uid).
Proof.
  intros Hsub tid Hin.
  apply list_elem_of_In, in_map_iff in Hin. destruct Hin as (txn & <- & Hin).
  apply list_elem_of_In, in_map. apply list_elem_of_In, Hsub.
  now apply list_elem_of_In.
Qed.

Lemma map_not_nil {A B : Type} (f : A -> B) (l : list A) :
  l <> [] -> map f l <> [].
Proof. destruct l; [congruence | discriminate]. Qed.

Lemma length_not_nil {A : Type} (l : list A) (k : nat) :
  (k < length l)%nat -> l <> [].
Proof. destruct l; simpl; [lia | discriminate]. Qed.

Lemma structuring_alert_facts (self : TransactionMonitor)
    (transaction : Transaction.t) (n : nat) (a : AMLAlert.t) :
  fst (_check_structuring self transaction n) = Some a ->
  AMLAlert.alert_type a = STRUCTURING
  /\ AMLAlert.user_id a = Transaction.user_id transaction
  /\ on_record self a
  /\ forallb (fun txn => Qltb (Transaction.amount txn) CTR_THRESHOLD)
             (structuring_recent_txns self transaction) = true.
Proof.
  rewrite check_structuring_run. cbv zeta.
  destruct (3 <=? length (structuring_recent_txns self transaction))%nat
    eqn:Hlen; [|discriminate].
  apply Nat.leb_le in Hlen.
  destruct (Qgeb _ _); [|discriminate].
  destruct (forallb _ _) eqn:Hall; [|discriminate]. simpl.
  intros [= <-]. unfold on_record. simpl. repeat split.
  - apply map_not_nil, (length_not_nil _ 2). lia.
  - apply ids_in_history. intros txn Hin.
    now apply structuring_window_elem in Hin.
Qed.

Lemma velocity_alert_facts (self : TransactionMonitor)
    (transaction : Transaction.t) (n : nat) (a : AMLAlert.t) :
  fst (_check_velocity self transaction n) = Some a ->
  AMLAlert.alert_type a = VELOCITY
  /\ AMLAlert.user_id a = Transaction.user_id transaction
  /\ on_record self a.
Proof.
  rewrite check_velocity_run. cbv zeta.
  assert (Hsub : forall tid : string,
    tid ∈ map Transaction.transaction_id
              (last_n 10 (velocity_recent_txns self transaction)) ->
    tid ∈ map Transaction.transaction_id
              (history_get self (Transaction.user_id transaction))).
  { apply ids_in_history. intros txn Hin.
    destruct (last_n_suffix 10 (velocity_recent_txns self transaction))
      as [k Hk].
    assert (Hw : txn ∈ velocity_recent_txns self transaction)
      by (rewrite Hk; apply elem_of_app; now right).
    now apply velocity_window_elem in Hw. }
  destruct (Nat.ltb_spec MAX_TRANSACTIONS_PER_DAY
              (length (velocity_recent_txns self transaction)))
    as [Hgt|Hle]; unfold MAX_TRANSACTIONS_PER_DAY in *.
  - simpl. intros [= <-]. unfold on_record. simpl. repeat split; [|exact Hsub].
    apply map_not_nil. intros E. apply last_n_nil in E; [|lia].
    rewrite E in Hgt. simpl in Hgt. lia.
  - destruct (Qgtb _ _) eqn:Hvol; [|discriminate].
    simpl. intros [= <-]. unfold on_record. simpl. repeat split; [|exact Hsub].
    apply map_not_nil. intros E. apply last_n_nil in E; [|lia].
    rewrite E in Hvol. discriminate.
Qed.

Lemma round_alert_facts (self : TransactionMonitor)
    (transaction : Transaction.t) (n : nat) (a : AMLAlert.t) :
  fst (_check_round_amounts self transaction n) = Some a ->
  AMLAlert.alert_type a = ROUND_AMOUNT
  /\ AMLAlert.user_id a = Transaction.user_id transaction
  /\ on_record self a.
Proof.
  rewrite check_round_amounts_run. cbv zeta.
  destruct (round_precondition _); [|discriminate]. rewrite andb_true_l.
  destruct (Nat.leb_spec 3 (length (recent_round_txns self transaction)))
    as [Hge|Hlt]; [|discriminate].
  simpl. intros [= <-]. unfold on_record. simpl. repeat split.
  - apply map_not_nil, (length_not_nil _ 2). lia.
  - apply ids_in_history. intros txn Hin.
    now apply round_window_elem in Hin.
Qed.

Lemma own_id_in_history (self : TransactionMonitor)
    (transaction : Transaction.t) (tid : string) :
  transaction ∈ history_get self (Transaction.user_id transaction) ->
  tid ∈ [Transaction.transaction_id transaction] ->
  tid ∈ map Transaction.transaction_id
            (history_get self (Transaction.user_id transaction)).
Proof.
  intros Hin Htid. apply list_elem_of_singleton in Htid. subst tid.
  apply list_elem_of_In, in_map. now apply list_elem_of_In.
Qed.

Lemma jurisdiction_alert_facts (self : TransactionMonitor)
    (transaction : Transaction.t) (n : nat) (a : AMLAlert.t) :
  transaction ∈ history_get self (Transaction.user_id transaction) ->
  fst (_check_jurisdiction self transaction n) = Some a ->
  AMLAlert.alert_type a = HIGH_RISK_JURISDICTION
  /\ AMLAlert.user_id a = Transaction.user_id transaction
  /\ on_record self a.
Proof.
  intros Hin. rewrite check_jurisdiction_run.
  destruct (Transaction.jurisdiction transaction) as [j|]; [|discriminate].
  destruct (truthy (Some j) && bool_decide _); [|discriminate].
  simpl. intros [= <-]. unfold on_record. simpl. repeat split.
  - discriminate.
  - intros tid. now apply own_id_in_history.
Qed.

(** The alerts returned by one call, seen one by one. *)
Lemma monitor_transaction_new (self : TransactionMonitor)
    (transaction : Transaction.t) (n : nat) (a : AMLAlert.t) :
  let self1 := store_transaction self transaction in
  a ∈ fst (fst (monitor_transaction self transaction n)) ->
  (Qgeb (Transaction.amount transaction) CTR_THRESHOLD = true
   /\ AMLAlert.alert_type a = LARGE_TRANSACTION
   /\ AMLAlert.severity a = "high"
   /\ AMLAlert.transaction_ids a = [Transaction.transaction_id transaction]
   /\ AMLAlert.user_id a = Transaction.user_id transaction)
  \/ (exists k : nat, fst (_check_structuring self1 transaction k) = Some a)
  \/ (exists k : nat, fst (_check_velocity self1 transaction k) = Some a)
  \/ (exists k : nat, fst (_check_round_amounts self1 transaction k) = Some a)
  \/ (exists k : nat, fst (_check_jurisdiction self1 transaction k) = Some a).
Proof.
  cbv zeta. rewrite monitor_transaction_run. cbv zeta. cbn [fst].
  rewrite list_elem_of_omap. intros (o & Ho & Hsome). simpl in Hsome.
  subst o. rewrite !elem_of_cons in Ho.
  destruct Ho as [Ho|[Ho|[Ho|[Ho|[Ho|Ho]]]]].
  - left. destruct (Qgeb _ _); [|discriminate].
    injection Ho as ->. simpl. auto.
  - right; left. eauto.
  - right; right; left. eauto.
  - right; right; right; left. eauto.
  - right; right; right; right. eauto.
  - now apply elem_of_nil in Ho.
Qed.

Lemma store_lookup_own (self : TransactionMonitor)
    (transaction : Transaction.t) :
  transaction_history (store_transaction self transaction)
    !! Transaction.user_id transaction
  = Some (history_get self (Transaction.user_id transaction) ++ [transaction]).
Proof.
  unfold store_transaction, history_get; simpl.
  destruct (transaction_history self !! Transaction.user_id transaction)
    as [l|] eqn:E; rewrite !lookup_insert_eq, ?E; reflexivity.
Qed.

Lemma monitor_transaction_state (self : TransactionMonitor)
    (transaction : Transaction.t) (n : nat) :
  let res := monitor_transaction self transaction n in
  transaction_history (snd (fst res))
  = transaction_history (store_transaction self transaction)
  /\ alerts (snd (fst res)) = alerts self ++ fst (fst res).
Proof.
  cbv zeta. rewrite monitor_transaction_run. cbv zeta. cbn [fst snd].
  split; reflexivity.
Qed.

Lemma keep_large (a : AMLAlert.t) (l : list (option AMLAlert.t)) :
  AMLAlert.alert_type a = LARGE_TRANSACTION ->
  List.filter
    (fun a => bool_decide (AMLAlert.alert_type a = LARGE_TRANSACTION))
    (omap id (Some a :: l))
  = a :: List.filter
      (fun a => bool_decide (AMLAlert.alert_type a = LARGE_TRANSACTION))
      (omap id l).
Proof.
  intros E. change (omap id (Some a :: l)) with (a :: omap id l).
  simpl. now rewrite bool_decide_eq_true_2.
Qed.

Lemma drop_not_large (o : option AMLAlert.t) (l : list (option AMLAlert.t)) :
  (forall a : AMLAlert.t,
     o = Some a -> AMLAlert.alert_type a <> LARGE_TRANSACTION) ->
  List.filter
    (fun a => bool_decide (AMLAlert.alert_type a = LARGE_TRANSACTION))
    (omap id (o :: l))
  = List.filter
      (fun a => bool_decide (AMLAlert.alert_type a = LARGE_TRANSACTION))
      (omap id l).
Proof.
  intros E. destruct o as [a|]; [|reflexivity].
  change (omap id (Some a :: l)) with (a :: omap id l).
  simpl. rewrite bool_decide_eq_false_2; [reflexivity|]. now apply E.
Qed.

(** C5. Among the alerts one call of [monitor_transaction] returns there
    is exactly one large-transaction alert when the amount is at least
    10 000, and none when it is below; the alert is of severity high and
    names the triggering transaction alone. The currency takes no part
    in the comparison. *)
Theorem large_transaction_rule (self : TransactionMonitor)
    (transaction : Transaction.t) (n : nat) :
  let new := fst (fst (monitor_transaction self transaction n)) in
  let large_alerts :=
    List.filter
      (fun a => bool_decide (AMLAlert.alert_type a = LARGE_TRANSACTION))
      new in
  ((10000 <= Transaction.amount transaction)%Q
   /\ exists a : AMLAlert.t,
       large_alerts = [a]
       /\ AMLAlert.alert_type a = LARGE_TRANSACTION
       /\ AMLAlert.severity a = "high"
       /\ AMLAlert.transaction_ids a
          = [Transaction.transaction_id transaction]
       /\ AMLAlert.user_id a = Transaction.user_id transaction)
  \/ ((Transaction.amount transaction < 10000)%Q /\ large_alerts = []).
Proof.
  cbv zeta. rewrite monitor_transaction_run. cbv zeta. cbn [fst].
  pose proof (stored_in_history self transaction) as Hstored.
  set (self1 := store_transaction self transaction) in *.
  set (s := _check_structuring self1 transaction _).
  set (v := _check_velocity self1 transaction _).
  set (ra := _check_round_amounts self1 transaction _).
  set (j := _check_jurisdiction self1 transaction _).
  assert (Hrest :
    List.filter
      (fun a => bool_decide (AMLAlert.alert_type a = LARGE_TRANSACTION))
      (omap id [fst s; fst v; fst ra; fst j]) = []).
  { rewrite !drop_not_large; [reflexivity| | | |].
    - intros a E. apply (jurisdiction_alert_facts _ _ _ _ Hstored) in E.
      destruct E as (T & _). congruence.
    - intros a E. apply round_alert_facts in E.
      destruct E as (T & _). congruence.
    - intros a E. apply velocity_alert_facts in E.
      destruct E as (T & _). congruence.
    - intros a E. apply structuring_alert_facts in E.
      destruct E as (T & _). congruence. }
  destruct (Qgeb (Transaction.amount transaction) CTR_THRESHOLD) eqn:Hamt.
  - left. split; [now apply Qgeb_true in Hamt|].
    eexists. split.
    + rewrite keep_large by reflexivity. rewrite Hrest. reflexivity.
    + simpl. auto.
  - right. split.
    + apply Qltb_true. rewrite Qltb_Qgeb. unfold CTR_THRESHOLD in Hamt.
      now rewrite Hamt.
    + exact Hrest.
Qed.

(** C7. One call of [monitor_transaction] first appends the transaction
    to the history of its account, a history that starts empty; then,
    on that updated history, it evaluates the large-transaction test,
    the structuring rule, the velocity rule, the round-amount rule and
    the jurisdiction rule, in that order. It returns the alerts of the
    rules that produced one, in that same order, and appends exactly
    that sequence to the alerts of the engine. *)
Theorem monitor_transaction_order (self : TransactionMonitor)
    (transaction : Transaction.t) (n : nat) :
  let uid := Transaction.user_id transaction in
  let self1 := store_transaction self transaction in
  let is_large := Qgeb (Transaction.amount transaction) CTR_THRESHOLD in
  let large :=
    if is_large then
      Some {| AMLAlert.alert_id := uuid4 n;
              AMLAlert.alert_type := LARGE_TRANSACTION;
              AMLAlert.severity := "high";
              AMLAlert.transaction_ids :=
                [Transaction.transaction_id transaction];
              AMLAlert.user_id := uid;
              AMLAlert.description :=
                "Large transaction of "
                +:+ float_str (Transaction.amount transaction) +:+ " "
                +:+ Transaction.currency transaction
                +:+ " exceeds CTR threshold";
              AMLAlert.created_at := utcnow n;
              AMLAlert.metadata := ∅ |}
    else None in
  let s := _check_structuring self1 transaction (if is_large then S n else n) in
  let v := _check_velocity self1 transaction (snd s) in
  let ra := _check_round_amounts self1 transaction (snd v) in
  let j := _check_jurisdiction self1 transaction (snd ra) in
  let new := omap id [large; fst s; fst v; fst ra; fst j] in
  let res := monitor_transaction self transaction n in
  transaction_history self1 !! uid
  = Some (default [] (transaction_history self !! uid) ++ [transaction])
  /\ fst (fst res) = new
  /\ alerts (snd (fst res)) = alerts self ++ new
  /\ transaction_history (snd (fst res)) = transaction_history self1.
Proof.
  cbv zeta. rewrite monitor_transaction_run. cbv zeta. cbn [fst snd].
  split; [apply store_lookup_own|]. repeat split; reflexivity.
Qed.

(** C10. One call of [monitor_transaction] for a transaction of account
    A leaves the history of every other account as it was, makes the
    history of A its former history followed by the new transaction,
    and makes the alerts of the engine the former alerts followed by the
    alerts it returns. *)
Theorem monitor_transaction_frame (self : TransactionMonitor)
    (transaction : Transaction.t) (n : nat) :
  let uid := Transaction.user_id transaction in
  let res := monitor_transaction self transaction n in
  (forall other : string,
     other <> uid ->
     transaction_history (snd (fst res)) !! other
     = transaction_history self !! other)
  /\ transaction_history (snd (fst res)) !! uid
     = Some (default [] (transaction_history self !! uid) ++ [transaction])
  /\ alerts (snd (fst res)) = alerts self ++ fst (fst res).
Proof.
  cbv zeta.
  destruct (monitor_transaction_state self transaction n) as [Hh Ha].
  rewrite Hh. split; [|split].
  - intros other Hne. now apply history_store_other.
  - apply store_lookup_own.
  - exact Ha.
Qed.

(** ** Large transactions against structuring *)

Lemma stored_in_structuring_window (self : TransactionMonitor)
    (transaction : Transaction.t) :
  transaction
    ∈ structuring_recent_txns (store_transaction self transaction) transaction.
Proof.
  apply structuring_window_elem. split; [apply stored_in_history|].
  split; [|reflexivity]. pose proof (timedelta_hours_pos 24). lia.
Qed.

Lemma structuring_fires_below (self : TransactionMonitor)
    (transaction : Transaction.t) (k : nat) (b : AMLAlert.t) :
  fst (_check_structuring (store_transaction self transaction) transaction k)
  = Some b ->
  Qgeb (Transaction.amount transaction) CTR_THRESHOLD = false.
Proof.
  intros E. apply structuring_alert_facts in E.
  destruct E as (_ & _ & _ & Hall).
  rewrite forallb_forall in Hall.
  specialize (Hall transaction).
  rewrite Qltb_Qgeb in Hall. apply negb_true_iff, Hall.
  apply list_elem_of_In, stored_in_structuring_window.
Qed.

(** C9. The alerts one call of [monitor_transaction] returns never hold
    a large-transaction alert together with a structuring alert: when the
    current amount is at least 10 000 the structuring rule, whose window
    holds the current transaction, returns nothing, and when the
    structuring rule returns an alert the current amount is strictly
    below 10 000. *)
Theorem large_excludes_structuring (self : TransactionMonitor)
    (transaction : Transaction.t) (n : nat) :
  let self1 := store_transaction self transaction in
  let new := fst (fst (monitor_transaction self transaction n)) in
  ~ (exists a b : AMLAlert.t,
       a ∈ new /\ b ∈ new
       /\ AMLAlert.alert_type a = LARGE_TRANSACTION
       /\ AMLAlert.alert_type b = STRUCTURING)
  /\ (forall k : nat,
        (10000 <= Transaction.amount transaction)%Q ->
        fst (_check_structuring self1 transaction k) = None)
  /\ (forall (k : nat) (b : AMLAlert.t),
        fst (_check_structuring self1 transaction k) = Some b ->
        (Transaction.amount transaction < 10000)%Q).
Proof.
  cbv zeta. pose proof (stored_in_history self transaction) as Hstored.
  split; [|split].
  - intros (a & b & Ha & Hb & Ta & Tb).
    apply monitor_transaction_new in Ha, Hb. cbv zeta in Ha, Hb.
    assert (Hlarge :
      Qgeb (Transaction.amount transaction) CTR_THRESHOLD = true).
    { destruct Ha as [(H & _)|[(k & E)|[(k & E)|[(k & E)|(k & E)]]]].
      - exact H.
      - apply structuring_alert_facts in E. destruct E as (T & _).
        congruence.
      - apply velocity_alert_facts in E. destruct E as (T & _). congruence.
      - apply round_alert_facts in E. destruct E as (T & _). congruence.
      - apply (jurisdiction_alert_facts _ _ _ _ Hstored) in E.
        destruct E as (T & _). congruence. }
    destruct Hb as [(_ & T & _)|[(k & E)|[(k & E)|[(k & E)|(k & E)]]]].
    + congruence.
    + apply structuring_fires_below in E. congruence.
    + apply velocity_alert_facts in E. destruct E as (T & _). congruence.
    + apply round_alert_facts in E. destruct E as (T & _). congruence.
    + apply (jurisdiction_alert_facts _ _ _ _ Hstored) in E.
      destruct E as (T & _). congruence.
  - intros k Hamt. apply Qgeb_true in Hamt.
    destruct (fst (_check_structuring _ transaction k)) as [b|] eqn:E;
      [|reflexivity].
    apply structuring_fires_below in E. unfold CTR_THRESHOLD in E.
    congruence.
  - intros k b E. apply structuring_fires_below in E.
    apply Qltb_true. rewrite Qltb_Qgeb. unfold CTR_THRESHOLD in E.
    now rewrite E.
Qed.

(** ** Alerts stay on record *)

Lemma on_record_mono (self self' : TransactionMonitor) (a : AMLAlert.t) :
  (forall uid : string, history_get self uid `prefix_of` history_get self' uid) ->
  on_record self a -> on_record self' a.
Proof.
  intros Hpre [Hne Hsub]. split; [exact Hne|].
  intros tid Hin. specialize (Hsub tid Hin).
  destruct (Hpre (AMLAlert.user_id a)) as [k ->].
  rewrite map_app. apply elem_of_app. now left.
Qed.

Lemma history_store_prefix (self : TransactionMonitor)
    (transaction : Transaction.t) (uid : string) :
  history_get self uid
    `prefix_of` history_get (store_transaction self transaction) uid.
Proof.
  rewrite history_get_store. case_decide.
  - now exists [transaction].
  - reflexivity.
Qed.

Lemma history_get_ext (self self' : TransactionMonitor) (uid : string) :
  transaction_history self = transaction_history self' ->
  history_get self uid = history_get self' uid.
Proof. unfold history_get. now intros ->. Qed.

(** Every alert one call returns is on record in the history as it is
    when the rules run. *)
Lemma new_alert_on_record (self : TransactionMonitor)
    (transaction : Transaction.t) (n : nat) (a : AMLAlert.t) :
  a ∈ fst (fst (monitor_transaction self transaction n)) ->
  AMLAlert.user_id a = Transaction.user_id transaction
  /\ on_record (store_transaction self transaction) a.
Proof.
  intros Ha. pose proof (stored_in_history self transaction) as Hstored.
  apply monitor_transaction_new in Ha. cbv zeta in Ha.
  destruct Ha as [(_ & _ & _ & Hids & Hu)|[(k & E)|[(k & E)|[(k & E)|(k & E)]]]].
  - split; [exact Hu|]. unfold on_record. rewrite Hids, Hu. split.
    + discriminate.
    + intros tid. now apply own_id_in_history.
  - apply structuring_alert_facts in E. tauto.
  - apply velocity_alert_facts in E. tauto.
  - apply round_alert_facts in E. tauto.
  - apply (jurisdiction_alert_facts _ _ _ _ Hstored) in E. tauto.
Qed.

Lemma step_alerts_prefix (op : Op) (self : TransactionMonitor) (n : nat) :
  alerts self `prefix_of` alerts (snd (fst (step op self n))).
Proof.
  destruct op as [transaction|uid|sev]; simpl; [|reflexivity|reflexivity].
  destruct (monitor_transaction_state self transaction n) as [_ ->].
  now eexists.
Qed.

Lemma step_history_prefix (op : Op) (self : TransactionMonitor) (n : nat)
    (uid : string) :
  history_get self uid
    `prefix_of` history_get (snd (fst (step op self n))) uid.
Proof.
  destruct op as [transaction|u|sev]; simpl; [|reflexivity|reflexivity].
  destruct (monitor_transaction_state self transaction n) as [Hh _].
  rewrite (history_get_ext _ _ uid Hh). apply history_store_prefix.
Qed.

Lemma reachable_on_record (self : TransactionMonitor) (n : nat) :
  reachable self n ->
  forall a : AMLAlert.t, a ∈ alerts self -> on_record self a.
Proof.
  induction 1 as [|op self n Hreach IH]; intros a Ha.
  - simpl in Ha. now apply elem_of_nil in Ha.
  - destruct op as [transaction|uid|sev]; simpl in *; [|now apply IH..].
    destruct (monitor_transaction_state self transaction n) as [Hh Hal].
    rewrite Hal in Ha. apply elem_of_app in Ha. destruct Ha as [Ha|Ha].
    + apply (on_record_mono self); [|now apply IH].
      intros uid. rewrite (history_get_ext _ _ uid Hh).
      apply history_store_prefix.
    + apply new_alert_on_record in Ha. destruct Ha as [_ Ha].
      apply (on_record_mono (store_transaction self transaction)); [|exact Ha].
      intros uid. now rewrite (history_get_ext _ _ uid Hh).
Qed.

(** C8. Every alert a call of [monitor_transaction] returns belongs to
    the account of the monitored transaction and names a non-empty list
    of identifiers, each the identifier of a transaction recorded in the
    history of that account when the alert is created. No operation of
    the engine removes or changes an alert or a recorded transaction:
    after every operation the former alerts, and the former history of
    every account, are a prefix of the new ones. Hence in every state
    the engine can reach, every alert is on record. *)
Theorem alerts_on_record (self : TransactionMonitor) (n : nat) :
  (forall (transaction : Transaction.t) (a : AMLAlert.t),
     a ∈ fst (fst (monitor_transaction self transaction n)) ->
     AMLAlert.user_id a = Transaction.user_id transaction
     /\ on_record (store_transaction self transaction) a)
  /\ (forall op : Op,
        alerts self `prefix_of` alerts (snd (fst (step op self n)))
        /\ forall uid : string,
            history_get self uid
              `prefix_of` history_get (snd (fst (step op self n))) uid)
  /\ (reachable self n ->
      forall a : AMLAlert.t, a ∈ alerts self -> on_record self a).
Proof.
  split; [|split].
  - intros transaction a. apply new_alert_on_record.
  - intros op. split; [apply step_alerts_prefix|].
    intros uid. apply step_history_prefix.
  - apply reachable_on_record.
Qed.

(** ** The windows once the current transaction is stored *)

Lemma own_cutoff (transaction : Transaction.t) :
  (Transaction.timestamp transaction - timedelta_hours 24
   <=? Transaction.timestamp transaction) = true.
Proof. apply Z.leb_le. pose proof (timedelta_hours_pos 24). lia. Qed.

Lemma history_get_store_own (self : TransactionMonitor)
    (transaction : Transaction.t) :
  history_get (store_transaction self transaction)
              (Transaction.user_id transaction)
  = history_get self (Transaction.user_id transaction) ++ [transaction].
Proof. rewrite history_get_store. now rewrite decide_True. Qed.

Lemma velocity_window_store (self : TransactionMonitor)
    (transaction : Transaction.t) :
  velocity_recent_txns (store_transaction self transaction) transaction
  = velocity_recent_txns self transaction ++ [transaction].
Proof.
  unfold velocity_recent_txns. rewrite history_get_store_own, List.filter_app.
  f_equal. cbn [List.filter]. now rewrite own_cutoff.
Qed.

Lemma structuring_window_velocity (self : TransactionMonitor)
    (transaction : Transaction.t) :
  structuring_recent_txns self transaction
  = List.filter
      (fun txn => bool_decide (Transaction.transaction_type txn
                               = Transaction.transaction_type transaction))
      (velocity_recent_txns self transaction).
Proof.
  unfold structuring_recent_txns, velocity_recent_txns.
  now rewrite List_filter_filter.
Qed.

Lemma round_window_velocity (self : TransactionMonitor)
    (transaction : Transaction.t) :
  recent_round_txns self transaction
  = List.filter (fun txn => round_amount (Transaction.amount txn))
                (velocity_recent_txns self transaction).
Proof.
  unfold recent_round_txns, velocity_recent_txns.
  now rewrite List_filter_filter.
Qed.

Lemma structuring_window_store (self : TransactionMonitor)
    (transaction : Transaction.t) :
  structuring_recent_txns (store_transaction self transaction) transaction
  = structuring_recent_txns self transaction ++ [transaction].
Proof.
  rewrite !structuring_window_velocity, velocity_window_store, List.filter_app.
  f_equal. cbn [List.filter]. now rewrite bool_decide_eq_true_2.
Qed.

Lemma round_window_store (self : TransactionMonitor)
    (transaction : Transaction.t) :
  recent_round_txns (store_transaction self transaction) transaction
  = recent_round_txns self transaction
    ++ (if round_amount (Transaction.amount transaction)
        then [transaction] else []).
Proof.
  rewrite !round_window_velocity, velocity_window_store, List.filter_app.
  reflexivity.
Qed.

(** ** Identifiers and the count of alerts *)

Lemma check_structuring_counter (self : TransactionMonitor)
    (transaction : Transaction.t) (k : nat) :
  (exists a : AMLAlert.t,
      _check_structuring self transaction k = (Some a, S k)
      /\ AMLAlert.alert_id a = uuid4 k
      /\ AMLAlert.severity a = "critical")
  \/ _check_structuring self transaction k = (None, k).
Proof.
  rewrite check_structuring_run. cbv zeta.
  destruct (_ && _); [left|right; reflexivity].
  eexists. split; [reflexivity|]. split; reflexivity.
Qed.

Lemma check_velocity_counter (self : TransactionMonitor)
    (transaction : Transaction.t) (k : nat) :
  (exists a : AMLAlert.t,
      _check_velocity self transaction k = (Some a, S k)
      /\ AMLAlert.alert_id a = uuid4 k
      /\ AMLAlert.severity a = "high")
  \/ _check_velocity self transaction k = (None, k).
Proof.
  rewrite check_velocity_run. cbv zeta.
  destruct (MAX_TRANSACTIONS_PER_DAY <? _)%nat.
  - left. eexists. split; [reflexivity|]. split; reflexivity.
  - destruct (Qgtb _ _); [left|right; reflexivity].
    eexists. split; [reflexivity|]. split; reflexivity.
Qed.

Lemma check_round_amounts_counter (self : TransactionMonitor)
    (transaction : Transaction.t) (k : nat) :
  (exists a : AMLAlert.t,
      _check_round_amounts self transaction k = (Some a, S k)
      /\ AMLAlert.alert_id a = uuid4 k
      /\ AMLAlert.severity a = "medium")
  \/ _check_round_amounts self transaction k = (None, k).
Proof.
  rewrite check_round_amounts_run. cbv zeta.
  destruct (_ && _); [left|right; reflexivity].
  eexists. split; [reflexivity|]. split; reflexivity.
Qed.

Lemma check_jurisdiction_counter (self : TransactionMonitor)
    (transaction : Transaction.t) (k : nat) :
  (exists a : AMLAlert.t,
      _check_jurisdiction self transaction k = (Some a, S k)
      /\ AMLAlert.alert_id a = uuid4 k
      /\ AMLAlert.severity a = "critical")
  \/ _check_jurisdiction self transaction k = (None, k).
Proof.
  rewrite check_jurisdiction_run.
  destruct (Transaction.jurisdiction transaction) as [j|];
    [|right; reflexivity].
  destruct (truthy (Some j) && bool_decide _); [left|right; reflexivity].
  eexists. split; [reflexivity|]. split; reflexivity.
Qed.

(** The alerts of one call carry the identifiers drawn at the counts
    [n], [n + 1], ... and the count advances by their number. *)
Lemma monitor_transaction_ids (self : TransactionMonitor)
    (transaction : Transaction.t) (n : nat) :
  let res := monitor_transaction self transaction n in
  map AMLAlert.alert_id (fst (fst res))
  = map uuid4 (seq n (length (fst (fst res))))
  /\ snd res = (n + length (fst (fst res)))%nat.
Proof.
  cbv zeta. rewrite monitor_transaction_run. cbv zeta. cbn [fst snd].
  set (self1 := store_transaction self transaction).
  set (n1 := if Qgeb _ _ then S n else n).
  assert (Hlarge :
    exists l1 : list AMLAlert.t,
      omap id [if Qgeb (Transaction.amount transaction) CTR_THRESHOLD
               then Some
                 {| AMLAlert.alert_id := uuid4 n;
                    AMLAlert.alert_type := LARGE_TRANSACTION;
                    AMLAlert.severity := "high";
                    AMLAlert.transaction_ids :=
                      [Transaction.transaction_id transaction];
                    AMLAlert.user_id := Transaction.user_id transaction;
                    AMLAlert.description :=
                      "Large transaction of "
                      +:+ float_str (Transaction.amount transaction) +:+ " "
                      +:+ Transaction.currency transaction
                      +:+ " exceeds CTR threshold";
                    AMLAlert.created_at := utcnow n;
                    AMLAlert.metadata := ∅ |}
               else None] = l1
      /\ map AMLAlert.alert_id l1 = map uuid4 (seq n (length l1))
      /\ n1 = (n + length l1)%nat).
  { subst n1. destruct (Qgeb _ _); eexists; (split; [reflexivity|]);
      simpl; split; (reflexivity || lia). }
  destruct Hlarge as (l1 & E1 & Hids1 & Hn1).
  match goal with
  | |- context [omap id (?o :: ?l)] =>
      change (o :: l) with ([o] ++ l); rewrite (omap_app id [o] l)
  end.
  rewrite E1. clear E1. clearbody n1.
  destruct (check_structuring_counter self1 transaction n1)
    as [(a2 & -> & I2 & _)| ->];
  cbn [fst snd];
  match goal with
  | |- context [_check_velocity self1 transaction ?k] =>
      destruct (check_velocity_counter self1 transaction k)
        as [(a3 & -> & I3 & _)| ->]
  end;
  cbn [fst snd];
  match goal with
  | |- context [_check_round_amounts self1 transaction ?k] =>
      destruct (check_round_amounts_counter self1 transaction k)
        as [(a4 & -> & I4 & _)| ->]
  end;
  cbn [fst snd];
  match goal with
  | |- context [_check_jurisdiction self1 transaction ?k] =>
      destruct (check_jurisdiction_counter self1 transaction k)
        as [(a5 & -> & I5 & _)| ->]
  end;
  cbn [fst snd omap list_omap id];
  rewrite map_app, length_app, seq_app, map_app, <- Hids1, <- Hn1;
  cbn [map length seq]; rewrite ?I2, ?I3, ?I4, ?I5;
  (split; [reflexivity|lia]).
Qed.

(** ** The alerts of the engine over its runs *)

Lemma List_filter_all {A : Type} (f : A -> bool) (l : list A) :
  (forall x : A, x ∈ l -> f x = true) -> List.filter f l = l.
Proof.
  induction l as [|x l IH]; intros H; simpl; [reflexivity|].
  rewrite (H x) by (apply elem_of_cons; now left).
  f_equal. apply IH. intros y Hy. apply H, elem_of_cons. now right.
Qed.

Lemma List_filter_none {A : Type} (f : A -> bool) (l : list A) :
  (forall x : A, x ∈ l -> f x = false) -> List.filter f l = [].
Proof.
  induction l as [|x l IH]; intros H; simpl; [reflexivity|].
  rewrite (H x) by (apply elem_of_cons; now left).
  apply IH. intros y Hy. apply H, elem_of_cons. now right.
Qed.

Lemma reachable_counter (self : TransactionMonitor) (n : nat) :
  reachable self n ->
  length (alerts self) = n
  /\ map AMLAlert.alert_id (alerts self) = map uuid4 (seq 0 n).
Proof.
  induction 1 as [|op self n Hreach [IHlen IHids]]; [split; reflexivity|].
  destruct op as [transaction|uid|sev]; simpl; [|now split..].
  destruct (monitor_transaction_state self transaction n) as [_ Hal].
  destruct (monitor_transaction_ids self transaction n) as [Hids Hn].
  rewrite Hal, Hn, length_app, map_app, seq_app, map_app, IHlen, IHids, Hids.
  split; reflexivity.
Qed.

(** X9. In every state the engine can reach, the alerts on record are as
    many as the identifiers drawn so far, and the [i]-th alert carries
    the [i]-th identifier drawn; when no identifier is ever drawn twice,
    the alerts on record have pairwise distinct identifiers. *)
Theorem alert_identifiers (self : TransactionMonitor) (n : nat) :
  reachable self n ->
  length (alerts self) = n
  /\ map AMLAlert.alert_id (alerts self) = map uuid4 (seq 0 n)
  /\ ((forall i j : nat, uuid4 i = uuid4 j -> i = j) ->
      NoDup (map AMLAlert.alert_id (alerts self))).
Proof.
  intros Hreach. destruct (reachable_counter self n Hreach) as [Hlen Hids].
  split; [exact Hlen|]. split; [exact Hids|].
  intros Hinj. rewrite Hids.
  assert (Inj (=) (=) uuid4) by exact Hinj.
  apply NoDup_fmap_2; [assumption|]. apply NoDup_seq.
Qed.

(** X1. After one call of [monitor_transaction] the alerts of the
    account of the transaction, as [get_alerts_by_user] lists them, are
    the former ones followed by all the alerts the call returned; the
    alerts listed for any other account are unchanged. *)
Theorem alerts_by_user_after_monitor (self : TransactionMonitor)
    (transaction : Transaction.t) (n : nat) :
  let uid := Transaction.user_id transaction in
  let res := monitor_transaction self transaction n in
  get_alerts_by_user (snd (fst res)) uid
  = get_alerts_by_user self uid ++ fst (fst res)
  /\ (forall other : string,
        other <> uid ->
        get_alerts_by_user (snd (fst res)) other
        = get_alerts_by_user self other).
Proof.
  cbv zeta. unfold get_alerts_by_user.
  destruct (monitor_transaction_state self transaction n) as [_ ->].
  rewrite !List.filter_app. split.
  - f_equal. apply List_filter_all. intros a Ha.
    apply new_alert_on_record in Ha. destruct Ha as [-> _].
    apply String.eqb_refl.
  - intros other Hne. rewrite List.filter_app.
    rewrite (List_filter_none _ (fst (fst _))); [apply app_nil_r|].
    intros a Ha. apply new_alert_on_record in Ha. destruct Ha as [-> _].
    apply String.eqb_neq. congruence.
Qed.

Lemma new_alert_kind_severity (self : TransactionMonitor)
    (transaction : Transaction.t) (n : nat) (a : AMLAlert.t) :
  a ∈ fst (fst (monitor_transaction self transaction n)) ->
  (AMLAlert.alert_type a, AMLAlert.severity a)
    ∈ [(LARGE_TRANSACTION, "high"); (STRUCTURING, "critical");
       (VELOCITY, "high"); (ROUND_AMOUNT, "medium");
       (HIGH_RISK_JURISDICTION, "critical")].
Proof.
  intros Ha. pose proof (stored_in_history self transaction) as Hstored.
  apply monitor_transaction_new in Ha. cbv zeta in Ha.
  destruct Ha as [(_ & T & S & _)|[(k & E)|[(k & E)|[(k & E)|(k & E)]]]].
  - rewrite T, S. set_solver.
  - destruct (structuring_alert_facts _ _ _ _ E) as (T & _).
    destruct (check_structuring_counter
                (store_transaction self transaction) transaction k)
      as [(a' & E' & _ & S)|E']; rewrite E' in E; [|discriminate].
    injection E as <-. rewrite T, S. set_solver.
  - destruct (velocity_alert_facts _ _ _ _ E) as (T & _).
    destruct (check_velocity_counter
                (store_transaction self transaction) transaction k)
      as [(a' & E' & _ & S)|E']; rewrite E' in E; [|discriminate].
    injection E as <-. rewrite T, S. set_solver.
  - destruct (round_alert_facts _ _ _ _ E) as (T & _).
    destruct (check_round_amounts_counter
                (store_transaction self transaction) transaction k)
      as [(a' & E' & _ & S)|E']; rewrite E' in E; [|discriminate].
    injection E as <-. rewrite T, S. set_solver.
  - destruct (jurisdiction_alert_facts _ _ _ _ Hstored E) as (T & _).
    destruct (check_jurisdiction_counter
                (store_transaction self transaction) transaction k)
      as [(a' & E' & _ & S)|E']; rewrite E' in E; [|discriminate].
    injection E as <-. rewrite T, S. set_solver.
Qed.

Lemma reachable_kind_severity (self : TransactionMonitor) (n : nat) :
  reachable self n ->
  forall a : AMLAlert.t,
    a ∈ alerts self ->
    (AMLAlert.alert_type a, AMLAlert.severity a)
      ∈ [(LARGE_TRANSACTION, "high"); (STRUCTURING, "critical");
         (VELOCITY, "high"); (ROUND_AMOUNT, "medium");
         (HIGH_RISK_JURISDICTION, "critical")].
Proof.
  induction 1 as [|op self n Hreach IH]; intros a Ha.
  - simpl in Ha. now apply elem_of_nil in Ha.
  - destruct op as [transaction|uid|sev]; simpl in *; [|now apply IH..].
    destruct (monitor_transaction_state self transaction n) as [_ Hal].
    rewrite Hal in Ha. apply elem_of_app in Ha. destruct Ha as [Ha|Ha].
    + now apply IH.
    + now apply (new_alert_kind_severity self transaction n).
Qed.

(** X2. In every state the engine can reach, each alert on record has
    the severity of its kind: high for large transactions and velocity,
    critical for structuring and high-risk jurisdictions, medium for
    round amounts; no alert is of kind unusual pattern. Hence
    [get_alerts_by_severity] returns nothing for any severity other than
    critical, high and medium, low included. *)
Theorem severity_by_kind (self : TransactionMonitor) (n : nat) :
  reachable self n ->
  (forall a : AMLAlert.t,
     a ∈ alerts self ->
     (AMLAlert.alert_type a, AMLAlert.severity a)
       ∈ [(LARGE_TRANSACTION, "high"); (STRUCTURING, "critical");
          (VELOCITY, "high"); (ROUND_AMOUNT, "medium");
          (HIGH_RISK_JURISDICTION, "critical")])
  /\ (forall severity : string,
        severity ∉ ["critical"; "high"; "medium"] ->
        get_alerts_by_severity self severity = []).
Proof.
  intros Hreach. split; [exact (reachable_kind_severity self n Hreach)|].
  intros sev Hsev. unfold get_alerts_by_severity.
  apply List_filter_none. intros a Ha.
  apply (reachable_kind_severity self n Hreach) in Ha.
  apply String.eqb_neq. intros <-. apply Hsev.
  rewrite !elem_of_cons in Ha. rewrite !elem_of_cons.
  destruct Ha as [Ha|[Ha|[Ha|[Ha|[Ha|Ha]]]]];
    try (injection Ha as _ ->; tauto).
  now apply elem_of_nil in Ha.
Qed.

Lemma reachable_keys (self : TransactionMonitor) (n : nat) :
  reachable self n ->
  forall (uid : string) (l : list Transaction.t),
    transaction_history self !! uid = Some l ->
    l <> [] /\ forall txn : Transaction.t,
                 txn ∈ l -> Transaction.user_id txn = uid.
Proof.
  induction 1 as [|op self n Hreach IH]; intros uid l Hl.
  - simpl in Hl. now rewrite lookup_empty in Hl.
  - destruct op as [transaction|u|sev]; simpl in *; [|now apply IH..].
    destruct (monitor_transaction_state self transaction n) as [Hh _].
    rewrite Hh in Hl.
    destruct (decide (uid = Transaction.user_id transaction)) as [->|Hne].
    + rewrite store_lookup_own in Hl. injection Hl as <-. split.
      * intros E. now apply app_eq_nil in E as [_ ?].
      * intros txn Hin. apply elem_of_app in Hin. destruct Hin as [Hin|Hin].
        -- unfold history_get in Hin.
           destruct (transaction_history self
                       !! Transaction.user_id transaction) as [l0|] eqn:E0;
             simpl in Hin; [|now apply elem_of_nil in Hin].
           now apply (IH _ _ E0).
        -- apply list_elem_of_singleton in Hin. now subst.
    + rewrite history_store_other in Hl by exact Hne. now apply IH.
Qed.

(** X7. In every state the engine can reach, the history is keyed by
    account: the list stored under an account identifier is not empty
    and holds only transactions of that account. *)
Theorem history_keyed_by_account (self : TransactionMonitor) (n : nat)
    (uid : string) (l : list Transaction.t) :
  reachable self n ->
  transaction_history self !! uid = Some l ->
  l <> []
  /\ forall txn : Transaction.t, txn ∈ l -> Transaction.user_id txn = uid.
Proof. intros Hreach. now apply reachable_keys with (n := n). Qed.

(** X11. In every state the engine can reach, an account that has no
    entry in the history has no alert: [get_alerts_by_user] returns the
    empty list for it. *)
Theorem unknown_account_no_alerts (self : TransactionMonitor) (n : nat)
    (uid : string) :
  reachable self n ->
  transaction_history self !! uid = None ->
  get_alerts_by_user self uid = [].
Proof.
  intros Hreach Hnone. unfold get_alerts_by_user.
  apply List_filter_none. intros a Ha.
  apply String.eqb_neq. intros Hu.
  destruct (reachable_on_record self n Hreach a Ha) as [Hne Hsub].
  destruct (AMLAlert.transaction_ids a) as [|tid tids]; [congruence|].
  specialize (Hsub tid). rewrite Hu in Hsub. unfold history_get in Hsub.
  rewrite Hnone in Hsub. simpl in Hsub.
  eapply elem_of_nil, Hsub. apply elem_of_cons. now left.
Qed.

(** ** What one call reads *)

Lemma check_structuring_same_window (self self' : TransactionMonitor)
    (transaction : Transaction.t) (k : nat) :
  velocity_recent_txns self transaction
  = velocity_recent_txns self' transaction ->
  _check_structuring (store_transaction self transaction) transaction k
  = _check_structuring (store_transaction self' transaction) transaction k.
Proof.
  intros H. rewrite !check_structuring_run. cbv zeta.
  now rewrite !structuring_window_store, !structuring_window_velocity, H.
Qed.

Lemma check_velocity_same_window (self self' : TransactionMonitor)
    (transaction : Transaction.t) (k : nat) :
  velocity_recent_txns self transaction
  = velocity_recent_txns self' transaction ->
  _check_velocity (store_transaction self transaction) transaction k
  = _check_velocity (store_transaction self' transaction) transaction k.
Proof.
  intros H. rewrite !check_velocity_run. cbv zeta.
  now rewrite !velocity_window_store, H.
Qed.

Lemma check_round_amounts_same_window (self self' : TransactionMonitor)
    (transaction : Transaction.t) (k : nat) :
  velocity_recent_txns self transaction
  = velocity_recent_txns self' transaction ->
  _check_round_amounts (store_transaction self transaction) transaction k
  = _check_round_amounts (store_transaction self' transaction) transaction k.
Proof.
  intros H. rewrite !check_round_amounts_run. cbv zeta.
  now rewrite !round_window_store, !round_window_velocity, H.
Qed.

Lemma check_jurisdiction_any_state (self self' : TransactionMonitor)
    (transaction : Transaction.t) (k : nat) :
  _check_jurisdiction self transaction k
  = _check_jurisdiction self' transaction k.
Proof. now rewrite !check_jurisdiction_run. Qed.

Lemma monitor_same_window (self self' : TransactionMonitor)
    (transaction : Transaction.t) (n : nat) :
  velocity_recent_txns self transaction
  = velocity_recent_txns self' transaction ->
  fst (fst (monitor_transaction self transaction n))
  = fst (fst (monitor_transaction self' transaction n))
  /\ snd (monitor_transaction self transaction n)
     = snd (monitor_transaction self' transaction n).
Proof.
  intros H. rewrite !monitor_transaction_run. cbv zeta. cbn [fst snd].
  rewrite (check_structuring_same_window self self' transaction _ H).
  rewrite (check_velocity_same_window self self' transaction _ H).
  rewrite (check_round_amounts_same_window self self' transaction _ H).
  rewrite (check_jurisdiction_any_state
             (store_transaction self transaction)
             (store_transaction self' transaction)).
  split; reflexivity.
Qed.

(** X6. What one call of [monitor_transaction] returns is decided by
    the transaction and by the stored transactions of its account dated
    no earlier than 24 hours before it: two engines that agree on these
    return the same alerts, whatever else they hold. *)
Theorem monitor_reads_window_only (self self' : TransactionMonitor)
    (transaction : Transaction.t) (n : nat) :
  velocity_recent_txns self transaction
  = velocity_recent_txns self' transaction ->
  fst (fst (monitor_transaction self transaction n))
  = fst (fst (monitor_transaction self' transaction n)).
Proof. intros H. now apply monitor_same_window. Qed.

Lemma velocity_window_other_account (self : TransactionMonitor)
    (other transaction : Transaction.t) :
  Transaction.user_id other <> Transaction.user_id transaction ->
  velocity_recent_txns (store_transaction self other) transaction
  = velocity_recent_txns self transaction.
Proof.
  intros Hne. unfold velocity_recent_txns.
  rewrite history_get_store. now rewrite decide_False by congruence.
Qed.

Lemma store_transaction_comm (self : TransactionMonitor)
    (t1 t2 : Transaction.t) :
  Transaction.user_id t1 <> Transaction.user_id t2 ->
  transaction_history (store_transaction (store_transaction self t1) t2)
  = transaction_history (store_transaction (store_transaction self t2) t1).
Proof.
  intros Hne. apply map_eq. intros uid.
  destruct (decide (uid = Transaction.user_id t1)) as [->|H1];
    [|destruct (decide (uid = Transaction.user_id t2)) as [->|H2]].
  - rewrite history_store_other by exact Hne.
    rewrite !store_lookup_own, history_get_store.
    now rewrite decide_False by exact Hne.
  - rewrite (history_store_other (store_transaction self t2) t1)
      by congruence.
    rewrite !store_lookup_own, history_get_store.
    now rewrite decide_False by congruence.
  - now rewrite !history_store_other by assumption.
Qed.

Lemma store_history_ext (self self' : TransactionMonitor)
    (transaction : Transaction.t) :
  transaction_history self = transaction_history self' ->
  transaction_history (store_transaction self transaction)
  = transaction_history (store_transaction self' transaction).
Proof. intros H. unfold store_transaction. cbn. now rewrite H. Qed.

(** X10. Accounts do not interfere. When two transactions belong to
    different accounts, monitoring the first does not change the alerts
    the second one gets, and the history the engine holds after both is
    the same in either order. *)
Theorem accounts_independent (self : TransactionMonitor)
    (t1 t2 : Transaction.t) (n k : nat) :
  Transaction.user_id t1 <> Transaction.user_id t2 ->
  let after1 := monitor_transaction self t1 n in
  let after2 := monitor_transaction self t2 n in
  fst (fst (monitor_transaction (snd (fst after1)) t2 k))
  = fst (fst (monitor_transaction self t2 k))
  /\ transaction_history
       (snd (fst (monitor_transaction (snd (fst after1)) t2 (snd after1))))
     = transaction_history
         (snd (fst (monitor_transaction (snd (fst after2)) t1 (snd after2)))).
Proof.
  intros Hne. cbv zeta. split.
  - apply monitor_same_window. unfold velocity_recent_txns.
    rewrite (history_get_ext _ (store_transaction self t1));
      [|apply monitor_transaction_state].
    rewrite history_get_store. now rewrite decide_False by congruence.
  - repeat match goal with
    | |- context [transaction_history
                    (snd (fst (monitor_transaction ?s ?t ?c)))] =>
        rewrite (proj1 (monitor_transaction_state s t c))
    end.
    rewrite (store_history_ext _ (store_transaction self t1) t2)
      by apply monitor_transaction_state.
    rewrite (store_history_ext _ (store_transaction self t2) t1)
      by apply monitor_transaction_state.
    now apply store_transaction_comm.
Qed.

(** ** The transaction every alert names *)

Lemma last_n_snoc {A : Type} (k : nat) (l : list A) (x : A) :
  (0 < k)%nat -> exists l' : list A, last_n k (l ++ [x]) = l' ++ [x].
Proof.
  intros Hk. unfold last_n. rewrite length_app. simpl.
  exists (skipn (length l + 1 - k) l). apply drop_app_le. lia.
Qed.

Lemma structuring_alert_last (self : TransactionMonitor)
    (transaction : Transaction.t) (k : nat) (a : AMLAlert.t) :
  fst (_check_structuring (store_transaction self transaction) transaction k)
  = Some a ->
  last (AMLAlert.transaction_ids a)
  = Some (Transaction.transaction_id transaction).
Proof.
  rewrite check_structuring_run. cbv zeta.
  destruct (_ && _); [|discriminate]. intros [= <-]. cbn [AMLAlert.transaction_ids].
  rewrite structuring_window_store, map_app. apply last_snoc.
Qed.

Lemma velocity_alert_last (self : TransactionMonitor)
    (transaction : Transaction.t) (k : nat) (a : AMLAlert.t) :
  fst (_check_velocity (store_transaction self transaction) transaction k)
  = Some a ->
  last (AMLAlert.transaction_ids a)
  = Some (Transaction.transaction_id transaction).
Proof.
  rewrite check_velocity_run. cbv zeta. rewrite velocity_window_store.
  destruct (last_n_snoc 10 (velocity_recent_txns self transaction)
              transaction) as [l' Hl']; [lia|].
  destruct (MAX_TRANSACTIONS_PER_DAY <? _)%nat;
    [|destruct (Qgtb _ _); [|discriminate]];
    intros [= <-]; cbn [AMLAlert.transaction_ids];
    rewrite Hl', map_app; apply last_snoc.
Qed.

Lemma round_alert_last (self : TransactionMonitor)
    (transaction : Transaction.t) (k : nat) (a : AMLAlert.t) :
  fst (_check_round_amounts (store_transaction self transaction)
         transaction k) = Some a ->
  last (AMLAlert.transaction_ids a)
  = Some (Transaction.transaction_id transaction).
Proof.
  rewrite check_round_amounts_run. cbv zeta.
  destruct (round_precondition _) eqn:Hpre; [|discriminate].
  rewrite andb_true_l.
  destruct (3 <=? _)%nat; [|discriminate].
  intros [= <-]. cbn [AMLAlert.transaction_ids].
  unfold round_precondition in Hpre. apply andb_true_iff in Hpre.
  destruct Hpre as [_ Hround].
  rewrite round_window_store, Hround, map_app. apply last_snoc.
Qed.

Lemma jurisdiction_alert_last (self : TransactionMonitor)
    (transaction : Transaction.t) (k : nat) (a : AMLAlert.t) :
  fst (_check_jurisdiction self transaction k) = Some a ->
  last (AMLAlert.transaction_ids a)
  = Some (Transaction.transaction_id transaction).
Proof.
  rewrite check_jurisdiction_run.
  destruct (Transaction.jurisdiction transaction) as [j|]; [|discriminate].
  destruct (truthy (Some j) && bool_decide _); [|discriminate]. now intros [= <-].
Qed.

(** X3. Every alert one call of [monitor_transaction] returns names the
    monitored transaction, and names it last: whichever rule produced
    the alert, the last of its transaction identifiers is the identifier
    of the current transaction. *)
Theorem returned_alerts_end_with_current (self : TransactionMonitor)
    (transaction : Transaction.t) (n : nat) (a : AMLAlert.t) :
  a ∈ fst (fst (monitor_transaction self transaction n)) ->
  last (AMLAlert.transaction_ids a)
  = Some (Transaction.transaction_id transaction).
Proof.
  intros Ha. apply monitor_transaction_new in Ha. cbv zeta in Ha.
  destruct Ha as [(_ & _ & _ & -> & _)|[(k & E)|[(k & E)|[(k & E)|(k & E)]]]].
  - reflexivity.
  - exact (structuring_alert_last _ _ _ _ E).
  - exact (velocity_alert_last _ _ _ _ E).
  - exact (round_alert_last _ _ _ _ E).
  - exact (jurisdiction_alert_last _ _ _ _ E).
Qed.

(** ** The kinds one call returns *)

Lemma kinds_sublist (os : list (option AMLAlert.t)) (ks : list AlertType) :
  Forall2 (fun o k => forall a : AMLAlert.t,
                        o = Some a -> AMLAlert.alert_type a = k) os ks ->
  sublist (map AMLAlert.alert_type (omap id os)) ks.
Proof.
  induction 1 as [|o k os ks Hk _ IH]; [constructor|].
  destruct o as [a|].
  - change (omap id (Some a :: os)) with (a :: omap id os). simpl.
    rewrite (Hk a eq_refl). now constructor.
  - change (omap id (None :: os)) with (omap id os). now constructor.
Qed.

Lemma omap_length_le {A : Type} (os : list (option A)) :
  (length (omap id os) <= length os)%nat.
Proof.
  induction os as [|[a|] os IH].
  - reflexivity.
  - change (omap id (Some a :: os)) with (a :: omap id os).
    cbn [length]. lia.
  - change (omap id (None :: os)) with (omap id os). cbn [length]. lia.
Qed.

Lemma omap_length_excl {A : Type} (o1 o2 : option A) (l : list (option A)) :
  o1 = None \/ o2 = None ->
  (length (omap id (o1 :: o2 :: l)) <= S (length l))%nat.
Proof.
  pose proof (omap_length_le l) as Hle.
  destruct o1 as [a1|], o2 as [a2|]; intros [H|H]; try discriminate.
  - change (omap id (Some a1 :: None :: l)) with (a1 :: omap id l).
    cbn [length]. lia.
  - change (omap id (None :: Some a2 :: l)) with (a2 :: omap id l).
    cbn [length]. lia.
  - change (omap id (None :: None :: l)) with (omap id l). lia.
  - change (omap id (None :: None :: l)) with (omap id l). lia.
Qed.

(** X4. The kinds of the alerts one call of [monitor_transaction]
    returns are a selection, in this order and without repetition, of
    large transaction, structuring, velocity, round amount and high-risk
    jurisdiction; the kind unusual pattern never occurs, and at most four
    alerts are returned. *)
Theorem returned_kinds_in_order (self : TransactionMonitor)
    (transaction : Transaction.t) (n : nat) :
  let new := fst (fst (monitor_transaction self transaction n)) in
  sublist (map AMLAlert.alert_type new)
          [LARGE_TRANSACTION; STRUCTURING; VELOCITY; ROUND_AMOUNT;
           HIGH_RISK_JURISDICTION]
  /\ (length new <= 4)%nat.
Proof.
  cbv zeta. rewrite monitor_transaction_run. cbv zeta. cbn [fst].
  pose proof (stored_in_history self transaction) as Hstored.
  split.
  - apply kinds_sublist. repeat constructor.
    + intros a. destruct (Qgeb _ _); [|discriminate]. now intros [= <-].
    + intros a E. now apply structuring_alert_facts in E.
    + intros a E. now apply velocity_alert_facts in E.
    + intros a E. now apply round_alert_facts in E.
    + intros a E.
      now apply (jurisdiction_alert_facts _ _ _ _ Hstored) in E.
  - match goal with
    | |- (length (omap id (?o1 :: ?o2 :: ?l)) <= 4)%nat =>
        apply (Nat.le_trans _ (S (length l))); [|simpl; lia];
        apply omap_length_excl
    end.
    destruct (Qgeb (Transaction.amount transaction) CTR_THRESHOLD) eqn:Hamt;
      [right|now left].
    destruct (fst (_check_structuring _ transaction (S n))) as [b|] eqn:E;
      [|reflexivity].
    apply structuring_fires_below in E. congruence.
Qed.

(** ** A call with nothing in the window *)

Lemma Qgtb_sum_single (transaction : Transaction.t) (y : Q) :
  (float_sum [Transaction.amount transaction]
   == Transaction.amount transaction)%Q ->
  Qgtb (sum_amounts [transaction]) y = Qgtb (Transaction.amount transaction) y.
Proof.
  intros Hsum. unfold Qgtb, sum_amounts. cbn [map]. f_equal.
  destruct (Qle_bool (float_sum [Transaction.amount transaction]) y) eqn:E1;
    destruct (Qle_bool (Transaction.amount transaction) y) eqn:E2;
    try reflexivity.
  - apply Qle_bool_iff in E1. rewrite Hsum in E1.
    apply Qle_bool_iff in E1. congruence.
  - apply Qle_bool_iff in E2. rewrite <- Hsum in E2.
    apply Qle_bool_iff in E2. congruence.
Qed.

(** X5. When no stored transaction of the account is dated within the
    24 hours before the monitored one, as on the first transaction of an
    account, and the sum of the single amount is that amount, the call
    returns a large-transaction alert when the amount is at least
    10 000, a velocity alert when the amount alone exceeds 100 000 and a
    jurisdiction alert when the jurisdiction is not empty and its
    upper-case form is listed, and never a structuring or round-amount
    alert; every alert returned names the monitored transaction alone. *)
Theorem alerts_on_empty_window (self : TransactionMonitor)
    (transaction : Transaction.t) (n : nat) :
  velocity_recent_txns self transaction = [] ->
  (float_sum [Transaction.amount transaction]
   == Transaction.amount transaction)%Q ->
  let new := fst (fst (monitor_transaction self transaction n)) in
  map AMLAlert.alert_type new
  = (if Qgeb (Transaction.amount transaction) CTR_THRESHOLD
     then [LARGE_TRANSACTION] else [])
    ++ (if Qgtb (Transaction.amount transaction) MAX_VOLUME_PER_DAY
        then [VELOCITY] else [])
    ++ (if match Transaction.jurisdiction transaction with
           | Some j =>
               negb (String.eqb j "")
               && bool_decide (str_upper j ∈ high_risk_jurisdictions)
           | None => false
           end
        then [HIGH_RISK_JURISDICTION] else [])
  /\ forall a : AMLAlert.t,
       a ∈ new ->
       AMLAlert.transaction_ids a = [Transaction.transaction_id transaction].
Proof.
  intros Hempty Hsum. cbv zeta. rewrite monitor_transaction_run. cbv zeta.
  cbn [fst]. rewrite check_structuring_run, check_velocity_run,
    check_round_amounts_run, check_jurisdiction_run. cbv zeta.
  rewrite structuring_window_store, structuring_window_velocity.
  rewrite velocity_window_store, round_window_store, round_window_velocity.
  rewrite Hempty. cbn [List.filter app length].
  change (3 <=? 1)%nat with false.
  change (MAX_TRANSACTIONS_PER_DAY <? 1)%nat with false.
  rewrite andb_false_l, (Qgtb_sum_single _ _ Hsum).
  replace (round_precondition (Transaction.amount transaction)
           && (3 <=? length (if round_amount (Transaction.amount transaction)
                             then [transaction] else []))%nat)
    with false
    by (destruct (round_amount _); simpl; now rewrite andb_false_r).
  change (last_n 10 [transaction]) with [transaction].
  destruct (Qgeb (Transaction.amount transaction) CTR_THRESHOLD);
    destruct (Qgtb (Transaction.amount transaction) MAX_VOLUME_PER_DAY);
    (destruct (Transaction.jurisdiction transaction) as [j|];
       [change (truthy (Some j)) with (negb (String.eqb j ""));
        destruct (negb (String.eqb j "")
                  && bool_decide (str_upper j ∈ high_risk_jurisdictions))|]);
    cbn [fst snd omap list_omap id map app AMLAlert.alert_type];
    (split; [reflexivity|]);
    intros a Ha; rewrite ?elem_of_cons in Ha;
    repeat (destruct Ha as [->|Ha]; [reflexivity|]);
    now apply elem_of_nil in Ha.
Qed.

(** ** Round amounts *)

(** X8. The test [amount % 1000 == 0 or amount % 500 == 0] holds exactly
    of the whole multiples of 500, negative ones and zero included: the
    test on 1000 adds nothing. *)
Theorem round_amount_multiple_of_500 (x : Q) :
  round_amount x = true <-> exists k : Z, (x == 500 * inject_Z k)%Q.
Proof.
  rewrite round_amount_true. unfold is_round, py_mod. split.
  - intros [H|H].
    + exists (2 * Qfloor (x / 1000)). rewrite inject_Z_mult.
      change (inject_Z 2) with 2%Q. lra.
    + exists (Qfloor (x / 500)). lra.
  - intros [k Hk]. right.
    assert (Hdiv : (x / 500 == inject_Z k)%Q) by (rewrite Hk; field).
    rewrite Hdiv, Qfloor_Z. lra.
Qed.

(** ** A large transaction inside the structuring window *)

(** X12. One transaction of at least 10 000 in the structuring window,
    whichever it is, silences the structuring rule: as long as such a
    transaction of the same account and kind is dated no earlier than 24
    hours before the monitored one, no structuring alert is returned,
    however many smaller transactions surround it. *)
Theorem large_member_blocks_structuring (self : TransactionMonitor)
    (transaction big : Transaction.t) (k : nat) :
  big ∈ history_get self (Transaction.user_id transaction) ->
  Transaction.transaction_type big
  = Transaction.transaction_type transaction ->
  Transaction.timestamp transaction - timedelta_hours 24
    <= Transaction.timestamp big ->
  (10000 <= Transaction.amount big)%Q ->
  fst (_check_structuring self transaction k) = None.
Proof.
  intros Hin Hkind Hts Hbig.
  destruct (fst (_check_structuring self transaction k)) as [a|] eqn:E;
    [|reflexivity].
  apply structuring_alert_facts in E. destruct E as (_ & _ & _ & Hall).
  rewrite forallb_forall in Hall. specialize (Hall big).
  assert (Hge : Qgeb (Transaction.amount big) CTR_THRESHOLD = true)
    by (apply Qgeb_true; exact Hbig).
  rewrite Qltb_Qgeb, Hge in Hall.
  discriminate Hall. apply list_elem_of_In, structuring_window_elem. auto.
Qed.

(** ** Transactions dated after the current one *)

Lemma structuring_none_with_future (k : nat) :
  fst (_check_structuring (stored [txn_future; txn_s1; txn_s2; txn_s3])
         txn_s3 k) = None.
Proof.
  destruct (fst (_check_structuring _ txn_s3 k)) as [a|] eqn:E;
    [|reflexivity].
  apply structuring_alert_facts in E. destruct E as (_ & _ & _ & Hall).
  vm_compute in Hall. discriminate.
Qed.

(** C2, at a history the rule gets wrong. A withdrawal of 15 000 dated
    four days ahead is on record, followed by withdrawals of 9 500 at 0h
    and 1h; a third withdrawal of 9 500 at 2h is monitored. The trailing
    24 hours hold the three withdrawals of 9 500, each below 10 000 and
    28 500 together, so the claim asks for a structuring alert. The
    window of the code has no upper bound and also holds the withdrawal
    of 15 000: the rule returns nothing, and the call returns no
    structuring alert. *)
Theorem structuring_silenced_by_later_transaction (n : nat) :
  let self := stored [txn_future; txn_s1; txn_s2; txn_s3] in
  List.filter
    (fun txn => bool_decide (Transaction.transaction_type txn
                             = Transaction.transaction_type txn_s3))
    (trailing_24h self txn_s3)
  = [txn_s1; txn_s2; txn_s3]
  /\ structuring_recent_txns self txn_s3
     = [txn_future; txn_s1; txn_s2; txn_s3]
  /\ fst (_check_structuring self txn_s3 n) = None
  /\ STRUCTURING
       ∉ map AMLAlert.alert_type
             (fst (fst (monitor_transaction
                          (stored [txn_future; txn_s1; txn_s2]) txn_s3 n))).
Proof.
  cbv zeta. split; [vm_compute; reflexivity|].
  split; [vm_compute; reflexivity|].
  split; [apply structuring_none_with_future|].
  intros Hin. apply list_elem_of_In, in_map_iff in Hin.
  destruct Hin as (a & Ha & Hin). apply list_elem_of_In in Hin.
  pose proof (stored_in_history (stored [txn_future; txn_s1; txn_s2]) txn_s3)
    as Hstored.
  apply monitor_transaction_new in Hin. cbv zeta in Hin.
  destruct Hin as [(_ & T & _)|[(k & E)|[(k & E)|[(k & E)|(k & E)]]]].
  - congruence.
  - change (store_transaction (stored [txn_future; txn_s1; txn_s2]) txn_s3)
      with (stored [txn_future; txn_s1; txn_s2; txn_s3]) in E.
    rewrite structuring_none_with_future in E. discriminate.
  - apply velocity_alert_facts in E. destruct E as (T & _). congruence.
  - apply round_alert_facts in E. destruct E as (T & _). congruence.
  - apply (jurisdiction_alert_facts _ _ _ _ Hstored) in E.
    destruct E as (T & _). congruence.
Qed.

(** C3, at a history the rule gets wrong. Fifty withdrawals of 100 dated
    four days ahead are on record and a withdrawal of 100 dated 0 is
    monitored. The trailing 24 hours hold that one transaction, so the
    claim asks for no velocity alert. The window of the code has no
    upper bound and holds all fifty-one: the rule returns a velocity
    alert with a transaction count of 51, on the last ten transactions
    recorded. *)
Theorem velocity_counts_later_transactions (n : nat) :
  let self := stored (sample_late_burst 50 ++ [txn_now]) in
  trailing_24h self txn_now = [txn_now]
  /\ velocity_recent_txns self txn_now = sample_late_burst 50 ++ [txn_now]
  /\ exists a : AMLAlert.t,
      fst (_check_velocity self txn_now n) = Some a
      /\ AMLAlert.alert_type a = VELOCITY
      /\ AMLAlert.severity a = "high"
      /\ AMLAlert.transaction_ids a
         = ["b41"; "b42"; "b43"; "b44"; "b45"; "b46"; "b47"; "b48"; "b49";
            "now"]
      /\ AMLAlert.metadata a = {[ "transaction_count" := MInt 51 ]}.
Proof.
  cbv zeta.
  assert (Hw : velocity_recent_txns
                 (stored (sample_late_burst 50 ++ [txn_now])) txn_now
               = sample_late_burst 50 ++ [txn_now])
    by (vm_compute; reflexivity).
  split; [vm_compute; reflexivity|]. split; [exact Hw|].
  rewrite check_velocity_run. cbv zeta. rewrite Hw.
  replace (MAX_TRANSACTIONS_PER_DAY
           <? length (sample_late_burst 50 ++ [txn_now]))%nat
    with true by (vm_compute; reflexivity).
  eexists. split; [reflexivity|]. cbn [AMLAlert.alert_type AMLAlert.severity
    AMLAlert.transaction_ids AMLAlert.metadata].
  split; [reflexivity|]. split; [reflexivity|].
  split; vm_compute; reflexivity.
Qed.

End Monitor.

(** ** Examples *)

(** C1, at a history the window gets wrong. [t-late] is stored first and
    is dated four days after [t-early]; when [t-early] is evaluated the
    window of the code holds [t-late], so it is not the closed interval
    of 24 hours that ends at the current timestamp. *)
Lemma window_not_closed_interval :
  ~ closed_interval_window
      (velocity_recent_txns (stored [txn_late; txn_early]) txn_early)
      (stored [txn_late; txn_early]) txn_early.
Proof.
  intros H. specialize (H txn_late). destruct H as [H _].
  assert (Hin : txn_late
                  ∈ velocity_recent_txns (stored [txn_late; txn_early])
                                         txn_early).
  { apply list_elem_of_In. vm_compute. left. reflexivity. }
  apply H in Hin. destruct Hin as (_ & _ & Hle).
  vm_compute in Hle. apply Hle. reflexivity.
Qed.

(** C1 at a history submitted in order: the window is the closed
    interval. *)
Lemma window_lower_bound_only_example :
  closed_interval_window
    (velocity_recent_txns (stored [txn_500a; txn_500b; txn_1000]) txn_1000)
    (stored [txn_500a; txn_500b; txn_1000]) txn_1000.
Proof.
  apply (window_lower_bound_only
           (stored [txn_500a; txn_500b; txn_1000]) txn_1000).
  intros txn Hin. apply list_elem_of_In in Hin. vm_compute in Hin.
  destruct Hin as [<-|[<-|[<-|[]]]]; vm_compute; discriminate.
Defined.


(** C8 at the engine that has monitored a withdrawal of 15 000: its
    large-transaction alert is on record. *)
Lemma alerts_on_record_example :
  on_record
    (snd (fst (step sample_uuid4 sample_utcnow sample_float_str sample_float_sum sample_upper
                 (OpMonitor txn_15000) init 0%nat)))
    alert_15000.
Proof.
  apply (alerts_on_record sample_uuid4 sample_utcnow sample_float_str sample_float_sum sample_upper
           (snd (fst (step sample_uuid4 sample_utcnow sample_float_str sample_float_sum sample_upper
                        (OpMonitor txn_15000) init 0%nat)))
           (snd (step sample_uuid4 sample_utcnow sample_float_str sample_float_sum sample_upper
                   (OpMonitor txn_15000) init 0%nat))).
  - apply reachable_step. apply reachable_init.
  - apply list_elem_of_In. vm_compute. left. reflexivity.
Defined.

(** C9 at a withdrawal of 15 000: the structuring rule returns nothing. *)
Lemma large_excludes_structuring_example :
  fst (_check_structuring sample_uuid4 sample_utcnow sample_float_str sample_float_sum
         (store_transaction init txn_15000) txn_15000 1%nat) = None.
Proof.
  apply (large_excludes_structuring sample_uuid4 sample_utcnow
           sample_float_str sample_float_sum sample_upper init txn_15000 0%nat).
  vm_compute. discriminate.
Defined.

(** C10 at a withdrawal of account [acct-1]: the history of [acct-2]
    is untouched. *)
Lemma monitor_transaction_frame_example :
  transaction_history
    (snd (fst (monitor_transaction sample_uuid4 sample_utcnow
                 sample_float_str sample_float_sum sample_upper (stored [txn_500a]) txn_15000 0%nat)))
    !! "acct-2"
  = transaction_history (stored [txn_500a]) !! "acct-2".
Proof.
  apply (monitor_transaction_frame sample_uuid4 sample_utcnow
           sample_float_str sample_float_sum sample_upper (stored [txn_500a]) txn_15000 0%nat).
  discriminate.
Defined.

(** ** The cases the specification singles out *)

Example large_at_threshold :
  sample_kinds init (sample_txn "t" 10000 0)
    (monitor_transaction sample_uuid4 sample_utcnow sample_float_str sample_float_sum sample_upper)
  = [LARGE_TRANSACTION].
Proof. vm_compute. reflexivity. Qed.

Example large_below_threshold :
  sample_kinds init (sample_txn "t" (999999 # 100) 0)
    (monitor_transaction sample_uuid4 sample_utcnow sample_float_str sample_float_sum sample_upper)
  = [].
Proof. vm_compute. reflexivity. Qed.

Example structuring_four_9500 :
  map AMLAlert.transaction_ids
    (fst (fst (monitor_transaction sample_uuid4 sample_utcnow sample_float_str sample_float_sum sample_upper
                 (stored [sample_txn "s1" 9500 0;
                          sample_txn "s2" 9500 (timedelta_hours 1);
                          sample_txn "s3" 9500 (timedelta_hours 2)])
                 (sample_txn "s4" 9500 (timedelta_hours 3)) 0%nat)))
  = [["s1"; "s2"; "s3"; "s4"]; ["s1"; "s2"; "s3"; "s4"]]
  /\ sample_kinds
       (stored [sample_txn "s1" 9500 0;
                sample_txn "s2" 9500 (timedelta_hours 1);
                sample_txn "s3" 9500 (timedelta_hours 2)])
       (sample_txn "s4" 9500 (timedelta_hours 3))
       (monitor_transaction sample_uuid4 sample_utcnow sample_float_str sample_float_sum sample_upper)
     = [STRUCTURING; ROUND_AMOUNT].
Proof. split; vm_compute; reflexivity. Qed.

Example structuring_with_one_large :
  sample_kinds
    (stored [sample_txn "s1" 9500 0;
             sample_txn "s2" 15000 (timedelta_hours 1);
             sample_txn "s3" 9500 (timedelta_hours 2)])
    (sample_txn "s4" 9500 (timedelta_hours 3))
    (monitor_transaction sample_uuid4 sample_utcnow sample_float_str sample_float_sum sample_upper)
  = [ROUND_AMOUNT].
Proof. vm_compute. reflexivity. Qed.

Example velocity_51st :
  map (fun a => (AMLAlert.alert_type a, AMLAlert.transaction_ids a))
    (fst (fst (monitor_transaction sample_uuid4 sample_utcnow sample_float_str sample_float_sum sample_upper
                 (stored (sample_burst 50))
                 (sample_txn "b50" 100 50) 0%nat)))
  = [(VELOCITY,
      ["b41"; "b42"; "b43"; "b44"; "b45"; "b46"; "b47"; "b48"; "b49"; "b50"])].
Proof. vm_compute. reflexivity. Qed.

Example jurisdiction_lowercase_iran :
  sample_kinds init
    {| Transaction.transaction_id := "j1";
       Transaction.user_id := "acct-1";
       Transaction.amount := 10;
       Transaction.currency := "USD";
       Transaction.transaction_type := TRANSFER;
       Transaction.timestamp := 0;
       Transaction.counterparty := None;
       Transaction.jurisdiction := Some "iran";
       Transaction.blockchain_address := None |}
    (monitor_transaction sample_uuid4 sample_utcnow sample_float_str sample_float_sum sample_upper)
  = [HIGH_RISK_JURISDICTION].
Proof. vm_compute. reflexivity. Qed.

(** ** Instances of the further properties *)

Lemma sample_uuid4_inj (i j : nat) : sample_uuid4 i = sample_uuid4 j -> i = j.
Proof.
  unfold sample_uuid4, str_of_nat. intros H.
  cbn [String.append] in H. injection H as H.
  change (NilEmpty.string_of_uint (Nat.to_uint i)
          = NilEmpty.string_of_uint (Nat.to_uint j)) in H.
  apply DecimalNat.Unsigned.to_uint_inj.
  pose proof (NilEmpty.usu (Nat.to_uint i)) as Hi.
  pose proof (NilEmpty.usu (Nat.to_uint j)) as Hj.
  rewrite H in Hi. congruence.
Qed.

Lemma reachable_after_15000 :
  reachable sample_uuid4 sample_utcnow sample_float_str sample_float_sum sample_upper
    (snd (fst (step sample_uuid4 sample_utcnow sample_float_str sample_float_sum sample_upper
                 (OpMonitor txn_15000) init 0%nat)))
    (snd (step sample_uuid4 sample_utcnow sample_float_str sample_float_sum sample_upper
            (OpMonitor txn_15000) init 0%nat)).
Proof. apply reachable_step. apply reachable_init. Qed.

(** X9 at the engine that has monitored a withdrawal of 15 000. *)
Lemma alert_identifiers_example :
  NoDup (map AMLAlert.alert_id
           (alerts (snd (fst (step sample_uuid4 sample_utcnow
                                sample_float_str sample_float_sum sample_upper (OpMonitor txn_15000)
                                init 0%nat))))).
Proof.
  apply (alert_identifiers sample_uuid4 sample_utcnow sample_float_str sample_float_sum sample_upper
           _ _ reachable_after_15000).
  exact sample_uuid4_inj.
Defined.

(** X1: monitoring [acct-1] leaves the alerts listed for [acct-2]. *)
Lemma alerts_by_user_after_monitor_example :
  get_alerts_by_user
    (snd (fst (monitor_transaction sample_uuid4 sample_utcnow
                 sample_float_str sample_float_sum sample_upper init txn_15000 0%nat))) "acct-2"
  = get_alerts_by_user init "acct-2".
Proof.
  apply (alerts_by_user_after_monitor sample_uuid4 sample_utcnow
           sample_float_str sample_float_sum sample_upper init txn_15000 0%nat).
  discriminate.
Defined.

(** X2: no alert of severity low after a withdrawal of 15 000. *)
Lemma severity_by_kind_example :
  get_alerts_by_severity
    (snd (fst (step sample_uuid4 sample_utcnow sample_float_str sample_float_sum sample_upper
                 (OpMonitor txn_15000) init 0%nat))) "low"
  = [].
Proof.
  apply (severity_by_kind sample_uuid4 sample_utcnow sample_float_str sample_float_sum sample_upper
           _ _ reachable_after_15000).
  rewrite !elem_of_cons, elem_of_nil.
  intros [H|[H|[H|[]]]]; discriminate.
Defined.

(** X7 at the engine that has monitored a withdrawal of 15 000. *)
Lemma history_keyed_by_account_example :
  [txn_15000] <> []
  /\ forall txn : Transaction.t,
       txn ∈ [txn_15000] -> Transaction.user_id txn = "acct-1".
Proof.
  apply (history_keyed_by_account sample_uuid4 sample_utcnow sample_float_str sample_float_sum sample_upper
           _ _ "acct-1" [txn_15000] reachable_after_15000).
  vm_compute. reflexivity.
Defined.

(** X11: [acct-2] is unknown after a withdrawal of [acct-1]. *)
Lemma unknown_account_no_alerts_example :
  get_alerts_by_user
    (snd (fst (step sample_uuid4 sample_utcnow sample_float_str sample_float_sum sample_upper
                 (OpMonitor txn_15000) init 0%nat))) "acct-2"
  = [].
Proof.
  apply (unknown_account_no_alerts sample_uuid4 sample_utcnow
           sample_float_str sample_float_sum sample_upper _ _ "acct-2" reachable_after_15000).
  vm_compute. reflexivity.
Defined.

(** X6: a transaction stored four days earlier does not count. *)
Lemma monitor_reads_window_only_example :
  fst (fst (monitor_transaction sample_uuid4 sample_utcnow sample_float_str sample_float_sum sample_upper
              (stored [txn_early]) txn_late 0%nat))
  = fst (fst (monitor_transaction sample_uuid4 sample_utcnow
                sample_float_str sample_float_sum sample_upper init txn_late 0%nat)).
Proof.
  apply (monitor_reads_window_only sample_uuid4 sample_utcnow
           sample_float_str sample_float_sum sample_upper (stored [txn_early]) init txn_late 0%nat).
  vm_compute. reflexivity.
Defined.

(** X10: a withdrawal of [acct-1] and a deposit of [acct-2]. *)
Lemma accounts_independent_example :
  fst (fst (monitor_transaction sample_uuid4 sample_utcnow sample_float_str sample_float_sum sample_upper
              (snd (fst (monitor_transaction sample_uuid4 sample_utcnow
                           sample_float_str sample_float_sum sample_upper init txn_15000 0%nat)))
              txn_other 1%nat))
  = fst (fst (monitor_transaction sample_uuid4 sample_utcnow
                sample_float_str sample_float_sum sample_upper init txn_other 1%nat)).
Proof.
  apply (accounts_independent sample_uuid4 sample_utcnow sample_float_str sample_float_sum sample_upper
           init txn_15000 txn_other 0%nat 1%nat).
  discriminate.
Defined.

(** X3: the alert on the withdrawal of 15 000 ends with its identifier. *)
Lemma returned_alerts_end_with_current_example :
  last (AMLAlert.transaction_ids alert_15000) = Some "big".
Proof.
  apply (returned_alerts_end_with_current sample_uuid4 sample_utcnow
           sample_float_str sample_float_sum sample_upper init txn_15000 0%nat alert_15000).
  apply list_elem_of_In. vm_compute. left. reflexivity.
Defined.

(** X5: a first withdrawal of 15 000 raises the large-transaction alert
    and nothing else. *)
Lemma alerts_on_empty_window_example :
  map AMLAlert.alert_type
    (fst (fst (monitor_transaction sample_uuid4 sample_utcnow
                 sample_float_str sample_float_sum sample_upper init txn_15000 0%nat)))
  = [LARGE_TRANSACTION].
Proof.
  assert (Hsum : (sample_float_sum [Transaction.amount txn_15000]
                  == Transaction.amount txn_15000)%Q)
    by (vm_compute; split; reflexivity).
  exact (proj1 (alerts_on_empty_window sample_uuid4 sample_utcnow
                  sample_float_str sample_float_sum sample_upper
                  init txn_15000 0%nat eq_refl Hsum)).
Defined.

(** X12: 15 000 among withdrawals of 9 500. *)
Lemma large_member_blocks_structuring_example :
  fst (_check_structuring sample_uuid4 sample_utcnow sample_float_str sample_float_sum
         (stored [sample_txn "s1" 9500 0;
                  sample_txn "s2" 15000 (timedelta_hours 1);
                  sample_txn "s3" 9500 (timedelta_hours 2);
                  sample_txn "s4" 9500 (timedelta_hours 3)])
         (sample_txn "s4" 9500 (timedelta_hours 3)) 0%nat)
  = None.
Proof.
  apply (large_member_blocks_structuring sample_uuid4 sample_utcnow
           sample_float_str sample_float_sum _ _
           (sample_txn "s2" 15000 (timedelta_hours 1))).
  - apply list_elem_of_In. vm_compute. right. left. reflexivity.
  - reflexivity.
  - vm_compute. discriminate.
  - vm_compute. discriminate.
Defined.

(** ** The jurisdiction rule and letter case *)

Lemma sample_upper_ascii (s : string) :
  is_ascii s = true -> sample_upper s = ascii_upper s.
Proof.
  induction s as [|c1 s' IH]; [reflexivity|]. intros Hs.
  cbn [is_ascii] in Hs. apply andb_true_iff in Hs. destruct Hs as [Hc Hs'].
  apply Nat.ltb_lt in Hc. specialize (IH Hs').
  assert (H196 : Ascii.eqb c1 "196" = false)
    by (apply Ascii.eqb_neq; intros ->; vm_compute in Hc; lia).
  assert (H197 : Ascii.eqb c1 "197" = false)
    by (apply Ascii.eqb_neq; intros ->; vm_compute in Hc; lia).
  destruct s' as [|c2 rest]; [reflexivity|].
  cbn [sample_upper ascii_upper] in *.
  rewrite H196, H197. cbn [andb]. now rewrite <- IH.
Qed.

(** C6, counterexample. The jurisdiction [iran] written with a dotless i
    is not, letter case apart, one of the seed jurisdictions, yet
    [str.upper] raises it to [IRAN] and the rule returns an alert. *)
Lemma jurisdiction_alert_on_dotless_i :
  ~ jurisdiction_rule_by_case sample_uuid4 sample_utcnow sample_upper
      init txn_dotless 0%nat.
Proof.
  intros [H _].
  assert (Hsome : is_Some (fst (_check_jurisdiction sample_uuid4
                                  sample_utcnow sample_upper
                                  init txn_dotless 0%nat)))
    by (vm_compute; eauto).
  apply H in Hsome. destruct Hsome as (j & Hj & Hrisk).
  injection Hj as <-. vm_compute in Hrisk. discriminate.
Qed.

(** C6 at the jurisdiction [iran], in lower case. *)
Lemma jurisdiction_rule_example :
  is_Some (fst (_check_jurisdiction sample_uuid4 sample_utcnow sample_upper
                  init txn_iran 0%nat))
  <-> exists name : string,
        name ∈ seed_jurisdictions /\ eq_ignore_case "iran" name = true.
Proof.
  apply (jurisdiction_rule sample_uuid4 sample_utcnow sample_upper
           init txn_iran 0%nat).
  - exact sample_upper_ascii.
  - reflexivity.
  - reflexivity.
Defined.

